(** * RoadBuddy: the trip and booking handlers of [Backend/app.py]

    A shallow embedding of the Flask handlers of the RoadBuddy backend
    and the properties of its trip store, search filter, trip creation,
    booking workflow and user booking lookup.

    The three module-level lists of [app.py] ([trips], [bookings],
    [users]) are one [store] record that every handler receives and
    returns.  The value of [request.get_json()] is the handler's [data]
    argument, the values of [uuid.uuid4()] and [datetime.now()] are
    arguments too.  A handler's [try: ... except Exception] is the
    exception monad [py] run by the handler, which turns a raised
    exception into the error envelope. *)

From Stdlib Require Import ZArith String Ascii List Bool Lia.
From Stdlib Require Import Floats.SpecFloat.
From stdpp Require Import base option list gmap strings.

Local Open Scope string_scope.
Local Open Scope Z_scope.

(** ** Python values *)

(** Python's [float] is IEEE 754 binary64. *)
Definition float : Type := spec_float.

Definition prec : Z := 53.
Definition emax : Z := 1024.

(** The exceptions the handlers can meet. *)
Inductive exn : Type :=
  | TypeError
  | ValueError
  | OverflowError
  | AttributeError.

(** A computation that returns or raises. *)
Inductive py (A : Type) : Type :=
  | Ret (a : A)
  | Raise (e : exn).
Arguments Ret {A} a.
Arguments Raise {A} e.

#[export] Instance py_ret : MRet py := fun _ a => Ret a.
#[export] Instance py_bind : MBind py := fun _ _ f m =>
  match m with
  | Ret a => f a
  | Raise e => Raise e
  end.

(** A decoded JSON document, as [json.loads] builds it: [None], [bool],
    [int], [float], [str], [list] and [dict]. *)
#[warnings="-register-all"]
Inductive json : Type :=
  | JNull
  | JBool (b : bool)
  | JInt (n : Z)
  | JFloat (f : float)
  | JStr (s : string)
  | JArr (xs : list json)
  | JObj (kvs : gmap string json).

(** [data.get(key, default)]: only a [dict] has the method. *)
Definition get (data : json) (key : string) (dflt : json) : py json :=
  match data with
  | JObj kvs => Ret (default dflt (kvs !! key))
  | _ => Raise AttributeError
  end.

(** [float(n)] for an [int]: rounded to nearest even, [OverflowError]
    when the rounded value leaves the binary64 range. *)
Definition float_of_int (n : Z) : py float :=
  match binary_normalize prec emax n 0 false with
  | S754_infinity _ => Raise OverflowError
  | f => Ret f
  end.

(** [int(f)] for a [float]: truncation towards zero. *)
Definition int_of_float (f : float) : py Z :=
  match f with
  | S754_zero _ => Ret 0
  | S754_infinity _ => Raise OverflowError
  | S754_nan => Raise ValueError
  | S754_finite s m e => Ret (cond_Zopp s (Z.shiftl (Zpos m) e))
  end.

(** [x * n] for a [float] and an [int]: the [int] is converted first. *)
Definition float_mul_int (x : float) (n : Z) : py float :=
  y ← float_of_int n; Ret (SFmul prec emax x y).

(** The literal [4.5]. *)
Definition float_4_5 : float :=
  Eval vm_compute in binary_normalize prec emax 9 (-1) false.

Definition float_of_bool (b : bool) : float :=
  if b then binary_normalize prec emax 1 0 false else S754_zero false.

(** [q in s] for two [str].  A [str] is kept as its UTF-8 text: one text
    occurs in another as bytes exactly when it does as code points. *)
Fixpoint str_in (q s : string) : bool :=
  String.prefix q s ||
  match s with
  | EmptyString => false
  | String _ s' => str_in q s'
  end.

(** The builtins whose tables and parsers belong to the Python runtime:
    [str.lower], [int(s)] and [float(s)] for a [str], and [str(v)] for a
    value that is not a [str].  Case mapping keeps the empty string empty
    and every other string non-empty. *)
Class Builtins : Type := {
  lower : string → string;
  int_of_str : string → py Z;
  float_of_str : string → py float;
  str_of_nonstr : json → string;
  lower_empty : lower "" = "";
  lower_nonempty : ∀ s, s ≠ "" → lower s ≠ ""
}.

Section Coercions.
Context `{Builtins}.

(** [int(v)] *)
Definition py_int (v : json) : py Z :=
  match v with
  | JInt n => Ret n
  | JBool b => Ret (if b then 1 else 0)
  | JFloat f => int_of_float f
  | JStr s => int_of_str s
  | JNull | JArr _ | JObj _ => Raise TypeError
  end.

(** [float(v)] *)
Definition py_float (v : json) : py float :=
  match v with
  | JFloat f => Ret f
  | JInt n => float_of_int n
  | JBool b => Ret (float_of_bool b)
  | JStr s => float_of_str s
  | JNull | JArr _ | JObj _ => Raise TypeError
  end.

(** [f"{v}"] *)
Definition py_str (v : json) : string :=
  match v with
  | JStr s => s
  | _ => str_of_nonstr v
  end.

(** [v.lower()]: only a [str] has the method. *)
Definition py_lower (v : json) : py string :=
  match v with
  | JStr s => Ret (lower s)
  | _ => Raise AttributeError
  end.
End Coercions.

(** A decimal literal [num/den] with both parts exact in binary64: the
    correctly rounded quotient is the float the literal denotes. *)
Definition float_lit (num den : Z) : float :=
  SFdiv prec emax (binary_normalize prec emax num 0 false)
                  (binary_normalize prec emax den 0 false).

(** ** The data model: the dicts of the three stores *)

Module Trip.
Record t : Type := mk {
  id : string;
  driverName : json;
  driverRating : float;
  route : string;
  departureCity : json;
  destinationCity : json;
  departureTime : json;
  availableSeats : Z;
  totalSeats : Z;
  pricePerPerson : float;
  estimatedDuration : json;
  carModel : json;
  amenities : json;
  pickupPoints : json;
  description : json
}.

(** [trip['availableSeats'] = n] *)
Definition set_availableSeats (n : Z) (x : t) : t :=
  mk (id x) (driverName x) (driverRating x) (route x) (departureCity x)
     (destinationCity x) (departureTime x) n (totalSeats x)
     (pricePerPerson x) (estimatedDuration x) (carModel x) (amenities x)
     (pickupPoints x) (description x).
End Trip.

Module Booking.
Record t : Type := mk {
  id : string;
  tripId : string;
  userId : json;
  passengerCount : Z;
  status : string;
  bookingTime : string;
  totalPrice : float
}.
End Booking.

Module User.
Record t : Type := mk {
  id : string;
  name : string;
  email : string;
  phone : string;
  rating : float;
  tripsCompleted : Z
}.
End User.

(** The module-level lists [trips], [bookings] and [users]. *)
Record store : Type := mk_store {
  trips : list Trip.t;
  bookings : list Booking.t;
  users : list User.t
}.

(** The sample data [app.py] starts with. *)
Definition sample_trip_1 : Trip.t :=
  Trip.mk "1" (JStr "Sarah M.") (float_lit 48 10) "New York → Boston"
    (JStr "New York") (JStr "Boston") (JStr "2025-06-15T09:00:00Z")
    3 4 (float_lit 45 1) (JStr "4h 30m") (JStr "Honda Accord")
    (JArr [JStr "WiFi"; JStr "AC"; JStr "Music"])
    (JArr [JStr "Penn Station"; JStr "Times Square"])
    (JStr "Comfortable ride to Boston with stops in Manhattan").

Definition sample_trip_2 : Trip.t :=
  Trip.mk "2" (JStr "John D.") (float_lit 46 10) "Boston → New York"
    (JStr "Boston") (JStr "New York") (JStr "2025-06-16T14:00:00Z")
    2 4 (float_lit 50 1) (JStr "4h 45m") (JStr "Toyota Camry")
    (JArr [JStr "AC"; JStr "Phone Charging"])
    (JArr [JStr "South Station"; JStr "Back Bay"])
    (JStr "Direct route to NYC with comfortable seating").

Definition sample_trip_3 : Trip.t :=
  Trip.mk "3" (JStr "Mike R.") (float_lit 49 10) "New York → Philadelphia"
    (JStr "New York") (JStr "Philadelphia") (JStr "2025-06-17T11:00:00Z")
    1 4 (float_lit 35 1) (JStr "2h 15m") (JStr "BMW 3 Series")
    (JArr [JStr "WiFi"; JStr "AC"; JStr "Music"; JStr "Snacks"])
    (JArr [JStr "Penn Station"])
    (JStr "Quick trip to Philly in luxury vehicle").

Definition sample_trips : list Trip.t :=
  [sample_trip_1; sample_trip_2; sample_trip_3].

Definition sample_users : list User.t :=
  [ User.mk "demo-user" "Demo User" "demo@roadbuddy.com" "+1-555-0123"
      (float_lit 47 10) 15 ].

Definition initial_store : store := mk_store sample_trips [] sample_users.

(** ** Handlers: state, exceptions and the response envelope *)

(** The body of a handler reads and appends to the stores and may raise;
    what it appended before raising stays. *)
Definition action (A : Type) : Type := store → py A * store.

#[export] Instance action_ret : MRet action := fun _ a s => (Ret a, s).
#[export] Instance action_bind : MBind action := fun _ _ f m s =>
  match m s with
  | (Ret a, s') => f a s'
  | (Raise e, s') => (Raise e, s')
  end.

Definition lift {A : Type} (m : py A) : action A := fun s => (m, s).

Definition read_trips : action (list Trip.t) := fun s => (Ret (trips s), s).
Definition read_bookings : action (list Booking.t) :=
  fun s => (Ret (bookings s), s).

(** [trips.append(t)] *)
Definition trips_append (t : Trip.t) : action unit :=
  fun s => (Ret tt, mk_store (trips s ++ [t]) (bookings s) (users s)).

(** [bookings.append(b)] *)
Definition bookings_append (b : Booking.t) : action unit :=
  fun s => (Ret tt, mk_store (trips s) (bookings s ++ [b]) (users s)).

(** [trip['availableSeats'] -= k], for the dict that sits at index [i] of
    [trips]. *)
Definition trip_sub_availableSeats (i : nat) (k : Z) : action unit :=
  fun s =>
    (Ret tt,
     mk_store
       (alter (fun t => Trip.set_availableSeats (Trip.availableSeats t - k) t)
              i (trips s))
       (bookings s) (users s)).

(** The [error] string of a failure: a literal of the handler, or
    [str(e)] of the exception caught. *)
Inductive error_msg : Type :=
  | Msg (s : string)
  | StrOf (e : exn).

(** [jsonify({"success": True, ...}), status] and
    [jsonify({"success": False, "error": ...}), status]. *)
Inductive response (A : Type) : Type :=
  | Success (status : Z) (body : A)
  | Failure (status : Z) (error : error_msg).
Arguments Success {A} status body.
Arguments Failure {A} status error.

(** [try: body except Exception as e: return failure(str(e)), status] *)
Definition try_except {A : Type} (body : action (response A)) (status : Z)
  : store → response A * store :=
  fun s =>
    match body s with
    | (Ret r, s') => (r, s')
    | (Raise e, s') => (Failure status (StrOf e), s')
    end.

(** [next((t for t in trips if t['id'] == trip_id), None)]: the first
    trip with the identifier, with its index in the list. *)
Definition find_trip (trip_id : string) (ts : list Trip.t)
  : option (nat * Trip.t) :=
  list_find (fun t => Trip.id t = trip_id) ts.

(** [[x for x in l if p(x)]] where [p] may raise. *)
Fixpoint filter_py {A : Type} (p : A → py bool) (l : list A) : py (list A) :=
  match l with
  | [] => Ret []
  | x :: l' =>
      b ← p x;
      r ← filter_py p l';
      Ret (if b : bool then x :: r else r)
  end.

(** Truth value of a [str]. *)
Definition nonempty (s : string) : bool :=
  match s with
  | EmptyString => false
  | String _ _ => true
  end.

(** The payloads of the successful responses. *)
Record banner : Type := mk_banner {
  bn_message : string;
  bn_version : string;
  bn_status : string;
  bn_endpoints : list (string * string)
}.

Record health : Type := mk_health {
  h_status : string;
  h_timestamp : string;
  h_service : string;
  h_version : string
}.

Record trip_list : Type := mk_trip_list {
  tl_trips : list Trip.t;
  tl_count : Z
}.

Record search_result : Type := mk_search_result {
  sr_trips : list Trip.t;
  sr_count : Z;
  sr_search : string;
  sr_from : string;
  sr_to : string
}.

Record trip_created : Type := mk_trip_created {
  tc_message : string;
  tc_trip : Trip.t
}.

Record trip_booked : Type := mk_trip_booked {
  tb_message : string;
  tb_booking : Booking.t
}.

(** [{**booking, "trip": trip}] *)
Record detailed_booking : Type := mk_detailed {
  db_booking : Booking.t;
  db_trip : Trip.t
}.

Record booking_list : Type := mk_booking_list {
  bl_bookings : list detailed_booking;
  bl_count : Z
}.

(** [b['userId'] == user_id] for the [str] of the path. *)
Definition json_eq_str (v : json) (s : string) : bool :=
  match v with
  | JStr s' => String.eqb s' s
  | _ => false
  end.

Section Handlers.
Context `{Builtins}.

Definition home : store → response banner * store :=
  fun s =>
    (Success 200
       (mk_banner "🚗 RoadBuddy API is Live!" "1.0.0" "running"
          [("trips", "/api/trips"); ("search", "/api/trips/search");
           ("health", "/api/health")]), s).

Definition health_check (now : string) : store → response health * store :=
  fun s => (Success 200 (mk_health "healthy" now "RoadBuddy API" "1.0.0"), s).

Definition get_trips : store → response trip_list * store :=
  try_except
    (ts ← read_trips;
     mret (Success 200 (mk_trip_list ts (Z.of_nat (length ts)))))
    500.

(** The test of the free-text comprehension, with the short circuit of
    [or]. *)
Definition matches_query (query : string) (t : Trip.t) : py bool :=
  if str_in query (lower (Trip.route t)) then Ret true else
  dep ← py_lower (Trip.departureCity t);
  if str_in query dep then Ret true else
  dst ← py_lower (Trip.destinationCity t);
  Ret (str_in query dst).

Definition matches_departure (departure : string) (t : Trip.t) : py bool :=
  dep ← py_lower (Trip.departureCity t); Ret (str_in departure dep).

Definition matches_destination (destination : string) (t : Trip.t) : py bool :=
  dst ← py_lower (Trip.destinationCity t); Ret (str_in destination dst).

(** [request.args] is a map from parameter names to their first value. *)
Definition search_trips (args : gmap string string)
  : store → response search_result * store :=
  try_except
    (let query := lower (default "" (args !! "q")) in
     let departure := lower (default "" (args !! "from")) in
     let destination := lower (default "" (args !! "to")) in
     filtered_trips ← read_trips;
     filtered_trips ←
       (if nonempty query
        then lift (filter_py (matches_query query) filtered_trips)
        else mret filtered_trips);
     filtered_trips ←
       (if nonempty departure
        then lift (filter_py (matches_departure departure) filtered_trips)
        else mret filtered_trips);
     filtered_trips ←
       (if nonempty destination
        then lift (filter_py (matches_destination destination) filtered_trips)
        else mret filtered_trips);
     mret (Success 200
             (mk_search_result filtered_trips
                (Z.of_nat (length filtered_trips))
                query departure destination)))
    500.

(** [uuid] is the value of [str(uuid.uuid4())]. *)
Definition create_trip (uuid : string) (data : json)
  : store → response trip_created * store :=
  try_except
    (driverName ← lift (get data "driverName" (JStr "Anonymous"));
     from_ ← lift (get data "from" (JStr ""));
     to_ ← lift (get data "to" (JStr ""));
     departureCity ← lift (get data "from" (JStr ""));
     destinationCity ← lift (get data "to" (JStr ""));
     departureTime ← lift (get data "departureTime" (JStr ""));
     availableSeats ← lift (get data "seats" (JInt 1) ≫= py_int);
     totalSeats ← lift (get data "seats" (JInt 1) ≫= py_int);
     pricePerPerson ← lift (get data "price" (JInt 0) ≫= py_float);
     estimatedDuration ← lift (get data "duration" (JStr "TBD"));
     carModel ← lift (get data "carModel" (JStr "Standard Vehicle"));
     amenities ← lift (get data "amenities" (JArr []));
     pickupPoints ← lift (get data "pickupPoints" (JArr []));
     description ← lift (get data "description" (JStr ""));
     let new_trip :=
       Trip.mk uuid driverName float_4_5
         (py_str from_ ++ " → " ++ py_str to_)
         departureCity destinationCity departureTime
         availableSeats totalSeats pricePerPerson
         estimatedDuration carModel amenities pickupPoints description in
     trips_append new_trip;;
     mret (Success 201 (mk_trip_created "Trip created successfully" new_trip)))
    400.

(** [uuid] is the value of [str(uuid.uuid4())], [now] the value of
    [datetime.now().isoformat()]. *)
Definition book_trip (trip_id : string) (uuid now : string) (data : json)
  : store → response trip_booked * store :=
  try_except
    (ts ← read_trips;
     match find_trip trip_id ts with
     | None => mret (Failure 404 (Msg "Trip not found"))
     | Some (i, trip) =>
         if (Trip.availableSeats trip <=? 0)%Z
         then mret (Failure 400 (Msg "No seats available"))
         else
           userId ← lift (get data "userId" (JStr "demo-user"));
           passengerCount ←
             lift (get data "passengerCount" (JInt 1) ≫= py_int);
           n ← lift (get data "passengerCount" (JInt 1) ≫= py_int);
           totalPrice ← lift (float_mul_int (Trip.pricePerPerson trip) n);
           let booking :=
             Booking.mk uuid trip_id userId passengerCount "confirmed" now
               totalPrice in
           bookings_append booking;;
           k ← lift (get data "passengerCount" (JInt 1) ≫= py_int);
           trip_sub_availableSeats i k;;
           mret (Success 201 (mk_trip_booked "Trip booked successfully" booking))
     end)
    400.

(** The loop that attaches the trip to each booking of the user. *)
Definition add_trip_details (ts : list Trip.t) (user_bookings : list Booking.t)
  : list detailed_booking :=
  fold_left
    (fun detailed_bookings booking =>
       match find_trip (Booking.tripId booking) ts with
       | Some (_, trip) => (detailed_bookings ++ [mk_detailed booking trip])%list
       | None => detailed_bookings
       end)
    user_bookings [].

Definition get_user_bookings (user_id : string)
  : store → response booking_list * store :=
  try_except
    (bs ← read_bookings;
     ts ← read_trips;
     let user_bookings :=
       List.filter (fun b => json_eq_str (Booking.userId b) user_id) bs in
     let detailed_bookings := add_trip_details ts user_bookings in
     mret (Success 200
             (mk_booking_list detailed_bookings
                (Z.of_nat (length detailed_bookings)))))
    500.

End Handlers.

(** ** The routes

    The [@app.route] table: a request names its handler and carries what
    the handler reads. *)
Inductive request : Type :=
  | GetHome
  | GetHealth (now : string)
  | GetTrips
  | GetSearch (args : gmap string string)
  | PostTrip (uuid : string) (data : json)
  | PostBook (trip_id : string) (uuid now : string) (data : json)
  | GetUserBookings (user_id : string).

(** The stores after a request is served. *)
Definition serve `{Builtins} (r : request) (s : store) : store :=
  match r with
  | GetHome => snd (home s)
  | GetHealth now => snd (health_check now s)
  | GetTrips => snd (get_trips s)
  | GetSearch args => snd (search_trips args s)
  | PostTrip uuid data => snd (create_trip uuid data s)
  | PostBook trip_id uuid now data => snd (book_trip trip_id uuid now data s)
  | GetUserBookings user_id => snd (get_user_bookings user_id s)
  end.

(** ** Vocabulary of the properties *)




(** The same test as a boolean, for trips whose cities are text. *)
Definition free_text_matchb `{Builtins} (q : string) (t : Trip.t) : bool :=
  let text v := match v with JStr s => lower s | _ => "" end in
  str_in (lower q) (lower (Trip.route t))
  || str_in (lower q) (text (Trip.departureCity t))
  || str_in (lower q) (text (Trip.destinationCity t)).

(** Both cities of the trip are [str]. *)
Definition text_cities (t : Trip.t) : Prop :=
  (∃ a, Trip.departureCity t = JStr a) ∧ (∃ b, Trip.destinationCity t = JStr b).

(** A request that, if it creates a trip, gives it text for both cities:
    its [from] and [to] are [str] or absent. *)
Definition text_request (r : request) : Prop :=
  match r with
  | PostTrip _ (JObj kvs) =>
      (∃ a, default (JStr "") (kvs !! "from") = JStr a) ∧
      (∃ b, default (JStr "") (kvs !! "to") = JStr b)
  | _ => True
  end.

(** Two trips that differ at most in [availableSeats]. *)
Definition same_but_seats (t t' : Trip.t) : Prop :=
  Trip.set_availableSeats 0 t = Trip.set_availableSeats 0 t'.

(** Every trip of [s] is still in [s'], at its place, with at most its
    seat count changed. *)
Definition trips_kept (s s' : store) : Prop :=
  (length (trips s) ≤ length (trips s'))%nat ∧
  ∀ (j : nat) (t : Trip.t), trips s !! j = Some t →
    ∃ t', trips s' !! j = Some t' ∧ same_but_seats t t'.

(** The trip a booking refers to: the first one with its [tripId]. *)
Definition trip_of (ts : list Trip.t) (b : Booking.t) : option Trip.t :=
  snd <$> find_trip (Booking.tripId b) ts.

(** ** Vocabulary of the further properties *)




(** One [if filter: filtered_trips = [...]] step of the search. *)
Definition search_stage (filter_ : string) (test : Trip.t → py bool)
    (l : list Trip.t) : py (list Trip.t) :=
  if nonempty filter_ then filter_py test l else Ret l.

(** The three steps in a row. *)
Definition search_stages `{Builtins} (query departure destination : string)
    (l : list Trip.t) : py (list Trip.t) :=
  l1 ← search_stage query (matches_query query) l;
  l2 ← search_stage departure (matches_departure departure) l1;
  search_stage destination (matches_destination destination) l2.

(** The bookings of a user with their trips, as the lookup lists them. *)
Definition detailed_bookings_of (user_id : string) (s : store)
  : list detailed_booking :=
  omap (fun b => mk_detailed b <$> trip_of (trips s) b)
    (List.filter (fun b => json_eq_str (Booking.userId b) user_id)
       (bookings s)).

(** The stores after a sequence of requests, served one after the other. *)
Definition run `{Builtins} (rs : list request) (s : store) : store :=
  fold_left (fun s r => serve r s) rs s.

(** Every booking names a trip of the store. *)
Definition bookings_refer_to_trips (s : store) : Prop :=
  ∀ b, b ∈ bookings s → ∃ t, t ∈ trips s ∧ Trip.id t = Booking.tripId b.

(** The place in [trips] that a trip identifier resolves to. *)
Definition trip_index (trip_id : string) (ts : list Trip.t) : option nat :=
  fst <$> find_trip trip_id ts.

(** The passengers of the bookings that resolve to place [j]. *)
Definition booked (ts : list Trip.t) (bs : list Booking.t) (j : nat) : Z :=
  foldr Z.add 0
    (Booking.passengerCount <$>
       List.filter
         (fun b => bool_decide (trip_index (Booking.tripId b) ts = Some j))
         bs).

(** The seats of place [j] that are free or booked. *)
Definition seats_in_use_or_free (s : store) (j : nat) : option Z :=
  (fun t => Trip.availableSeats t + booked (trips s) (bookings s) j)
    <$> trips s !! j.

(** A request that, if it books, asks for a passenger count that is not
    negative. *)
Definition nonnegative_count `{Builtins} (r : request) : Prop :=
  match r with
  | PostBook _ _ _ data =>
      ∀ k, get data "passengerCount" (JInt 1) ≫= py_int = Ret k → 0 ≤ k
  | _ => True
  end.

(** A request that, if it creates a trip, brings an identifier that no
    trip of the store has. *)
Definition fresh_uuid (r : request) (s : store) : Prop :=
  match r with
  | PostTrip uuid _ => ∀ t, t ∈ trips s → Trip.id t ≠ uuid
  | _ => True
  end.

(** The requests of a sequence that create a trip each bring an
    identifier that no trip has when the request is served. *)
Fixpoint fresh_uuids `{Builtins} (rs : list request) (s : store) : Prop :=
  match rs with
  | [] => True
  | r :: rs' => fresh_uuid r s ∧ fresh_uuids rs' (serve r s)
  end.

(** No trip has more seats available than it has seats. *)
Definition seats_within_total (s : store) : Prop :=
  Forall (fun t => Trip.availableSeats t ≤ Trip.totalSeats t) (trips s).


(** ** A small runtime to run the handlers on examples

    It agrees with CPython on ASCII letters, on plain decimal integers
    and on the text of [None], [bool] and [int]; the results below hold
    for every instance of [Builtins]. *)
Module Runtime.

Definition lower_ascii (c : ascii) : ascii :=
  let n := nat_of_ascii c in
  if ((65 <=? n) && (n <=? 90))%nat then ascii_of_nat (n + 32) else c.

Fixpoint lower (s : string) : string :=
  match s with
  | EmptyString => EmptyString
  | String c s' => String (lower_ascii c) (lower s')
  end.

Definition digit (c : ascii) : option Z :=
  let n := nat_of_ascii c in
  if ((48 <=? n) && (n <=? 57))%nat then Some (Z.of_nat (n - 48)) else None.

Fixpoint digits (acc : Z) (s : string) : option Z :=
  match s with
  | EmptyString => Some acc
  | String c s' =>
      match digit c with
      | Some d => digits (10 * acc + d) s'
      | None => None
      end
  end.

Definition int_of_str (s : string) : py Z :=
  let parse body :=
    match body with
    | EmptyString => None
    | _ => digits 0 body
    end in
  let r :=
    match s with
    | String "-" body => Z.opp <$> parse body
    | String "+" body => parse body
    | _ => parse s
    end in
  match r with
  | Some n => Ret n
  | None => Raise ValueError
  end.

Definition float_of_str (s : string) : py float :=
  n ← int_of_str s; float_of_int n.

Fixpoint decimal (fuel : nat) (n : Z) (acc : string) : string :=
  match fuel with
  | O => acc
  | S fuel' =>
      let acc' := String (ascii_of_nat (48 + Z.to_nat (n mod 10))) acc in
      if n <? 10 then acc' else decimal fuel' (n / 10) acc'
  end.

Definition str_of_int (n : Z) : string :=
  let a := Z.abs n in
  let d := decimal (S (Z.to_nat (Z.log2 a))) a "" in
  if n <? 0 then String "-" d else d.

Definition str_of_nonstr (v : json) : string :=
  match v with
  | JNull => "None"
  | JBool true => "True"
  | JBool false => "False"
  | JInt n => str_of_int n
  | _ => "..."
  end.

Lemma lower_empty : lower "" = "".
Proof. reflexivity. Qed.

Lemma lower_nonempty (s : string) : s ≠ "" → lower s ≠ "".
Proof. destruct s as [|c s]; [congruence | discriminate]. Qed.

#[export] Instance builtins : Builtins :=
  Build_Builtins lower int_of_str float_of_str str_of_nonstr
    lower_empty lower_nonempty.

End Runtime.

(** ** Scenarios

    Stores reached from the sample data by requests, and the requests
    tried on them below. *)





(** After [POST /api/trips] with
    [{"from": "Boston", "to": "Albany", "seats": 2, "price": 20}]. *)
Definition albany_request : gmap string json :=
  {[ "from" := JStr "Boston"; "to" := JStr "Albany";
     "seats" := JInt 2; "price" := JInt 20 ]}.

Definition store_with_albany_trip : store :=
  snd (create_trip (H := Runtime.builtins) "t-4" (JObj albany_request)
         initial_store).

(** The trip that [albany_request] creates under the identifier [t-4]. *)
Definition albany_trip : Trip.t :=
  Trip.mk "t-4" (JStr "Anonymous") float_4_5 "Boston → Albany"
    (JStr "Boston") (JStr "Albany") (JStr "") 2 2 (float_lit 20 1)
    (JStr "TBD") (JStr "Standard Vehicle") (JArr []) (JArr []) (JStr "").

(** A search for [new york] among the trips that leave from [BOSTON]. *)
Definition two_filters : gmap string string :=
  {[ "q" := "new york"; "from" := "BOSTON" ]}.

(** Two seats of trip [1] for [alice]. *)
Definition alice_request : json :=
  JObj {[ "passengerCount" := JInt 2; "userId" := JStr "alice" ]}.

Definition store_with_alice_booking : store :=
  snd (book_trip (H := Runtime.builtins) "1" "b-1" "2025-06-01T12:00:00"
         alice_request initial_store).

(** One seat of trip [2] with the number 5 as [userId]. *)
Definition nobody_request : json := JObj {[ "userId" := JInt 5 ]}.

Definition store_with_booking_of_nobody : store :=
  snd (book_trip (H := Runtime.builtins) "2" "b-1" "2025-06-01T12:00:00"
         nobody_request initial_store).

(** A morning of requests: a booking, a creation, a booking of the new
    trip, a search, and a booking for more passengers than seats. *)
Definition busy_morning : list request :=
  [ PostBook "1" "b-1" "2025-06-01T08:00:00"
      (JObj {[ "passengerCount" := JInt 2 ]});
    PostTrip "t-4" (JObj albany_request);
    PostBook "t-4" "b-2" "2025-06-01T09:00:00" (JObj ∅);
    GetSearch two_filters;
    PostBook "3" "b-3" "2025-06-01T10:00:00"
      (JObj {[ "passengerCount" := JInt 5 ]}) ].

(** ** Results *)

(** *** Conversion of an [int] to a float *)

Lemma digits2_pos_size (m : positive) : digits2_pos m = Pos.size m.
Proof. induction m; cbn; congruence. Qed.

Lemma digits2_pos_iter_xO (m p : positive) :
  digits2_pos (Pos.iter xO m p) = (digits2_pos m + p)%positive.
Proof.
  induction p as [|p IH] using Pos.peano_ind.
  - cbn. lia.
  - rewrite Pos.iter_succ. cbn. rewrite IH. lia.
Qed.

(** A number below [2^n] has at most [n] binary digits. *)
Lemma digits2_pos_le (m : positive) (n : Z) :
  Zpos m < 2 ^ n → Zpos (digits2_pos m) ≤ n.
Proof.
  intros Hm. rewrite digits2_pos_size.
  destruct (Z_le_gt_dec (Zpos (Pos.size m)) n) as [|Hgt]; [done|].
  assert (0 ≤ n).
  { destruct (Z_le_gt_dec 0 n); [done|]. rewrite Z.pow_neg_r in Hm; lia. }
  pose proof (Pos.size_le m) as Hle.
  assert (H2 : 2 ^ Zpos (Pos.size m) ≤ 2 * Zpos m).
  { rewrite <- Pos2Z.inj_pow. change (2 * Zpos m) with (Zpos m~0). lia. }
  assert (2 ^ (n + 1) ≤ 2 ^ Zpos (Pos.size m)) by (apply Z.pow_le_mono_r; lia).
  rewrite Z.pow_add_r in * by lia. lia.
Qed.

Lemma digits2_pos_succ (p : positive) :
  (digits2_pos (Pos.succ p) ≤ digits2_pos p + 1)%positive.
Proof. induction p; simpl; lia. Qed.

(** One step of the right shift takes one digit off. *)
Lemma shr_1_digits (mrs : shr_record) :
  Zdigits2 (shr_m (shr_1 mrs)) = Z.max 0 (Zdigits2 (shr_m mrs) - 1).
Proof. destruct mrs as [[|[p|p|]|[p|p|]] r s]; cbn; lia. Qed.

Lemma shr_1_nonneg (mrs : shr_record) :
  0 ≤ shr_m mrs → 0 ≤ shr_m (shr_1 mrs).
Proof. destruct mrs as [[|[p|p|]|[p|p|]] r s]; cbn; lia. Qed.

Lemma iter_shr_1_digits (p : positive) (mrs : shr_record) :
  Zdigits2 (shr_m (SpecFloat.iter_pos shr_1 p mrs)) =
    Z.max 0 (Zdigits2 (shr_m mrs) - Zpos p).
Proof.
  revert mrs.
  induction p as [p IH|p IH|]; intros mrs; cbn [SpecFloat.iter_pos].
  - rewrite !IH, shr_1_digits. lia.
  - rewrite !IH. lia.
  - apply shr_1_digits.
Qed.

Lemma iter_shr_1_nonneg (p : positive) (mrs : shr_record) :
  0 ≤ shr_m mrs → 0 ≤ shr_m (SpecFloat.iter_pos shr_1 p mrs).
Proof.
  revert mrs.
  induction p as [p IH|p IH|]; intros mrs Hm; cbn [SpecFloat.iter_pos];
    auto using shr_1_nonneg.
Qed.

(** Rounding adds at most one digit. *)
Lemma round_nearest_even_digits (m : Z) (l : location) :
  0 ≤ m →
  0 ≤ round_nearest_even m l ∧
  Zdigits2 (round_nearest_even m l) ≤ Zdigits2 m + 1.
Proof.
  intros Hm.
  assert (Hs : 0 ≤ m + 1 ∧ Zdigits2 (m + 1) ≤ Zdigits2 m + 1).
  { destruct m as [|p|p]; [by vm_compute| |lia].
    split; [lia|]. replace (Zpos p + 1) with (Zpos (Pos.succ p)) by lia.
    cbn. pose proof (digits2_pos_succ p). lia. }
  unfold round_nearest_even.
  destruct l as [|[| |]]; try (split; lia); try done.
  destruct (Z.even m); [split; lia|done].
Qed.

(** A mantissa of 53 bits with an exponent in range is kept as it is. *)
Lemma binary_round_aux_exact (s : bool) (mz : positive) (ez : Z) :
  Zpos (digits2_pos mz) = 53 →
  -1074 ≤ ez ≤ 971 →
  binary_round_aux prec emax s (Zpos mz) ez loc_Exact = S754_finite s mz ez.
Proof.
  intros Hd He.
  unfold binary_round_aux, shr_fexp, fexp, emin, prec, emax, Zdigits2.
  cbn [shr_record_of_loc].
  rewrite Hd.
  replace (Z.max (53 + ez - 53) (3 - 1024 - 53) - ez) with 0 by lia.
  cbn [shr loc_of_shr_record shr_m shr_r shr_s round_nearest_even
       shr_record_of_loc].
  rewrite Hd.
  replace (Z.max (53 + ez - 53) (3 - 1024 - 53) - ez) with 0 by lia.
  cbn [shr shr_m].
  destruct (Z.leb_spec ez (1024 - 53)); [done|lia].
Qed.

(** An [int] of at most 53 bits is represented exactly. *)
Lemma binary_round_small (s : bool) (m : positive) :
  Zpos (digits2_pos m) ≤ 53 →
  ∃ m' e', binary_round prec emax s m 0 = S754_finite s m' e'.
Proof.
  intros Hd.
  unfold binary_round. rewrite Z.add_0_r.
  unfold fexp at 1. unfold emin, prec, emax.
  rewrite Z.max_l by lia.
  unfold shl_align. rewrite Z.sub_0_r.
  destruct (Z.pos (digits2_pos m) - 53) as [|p|p] eqn:Hp; [|lia|].
  - eexists _, _. apply (binary_round_aux_exact s m 0); lia.
  - eexists _, _.
    apply (binary_round_aux_exact s (Pos.iter xO m p) (Z.neg p)); [|lia].
    rewrite digits2_pos_iter_xO. lia.
Qed.

(** The first shift of a longer [int] leaves 53 bits. *)
Lemma shr_fexp_large (m : positive) :
  53 < Zpos (digits2_pos m) →
  ∃ mrs,
    shr_fexp prec emax (Zpos m) 0 loc_Exact =
      (mrs, Zpos (digits2_pos m) - 53) ∧
    Zdigits2 (shr_m mrs) = 53 ∧
    0 ≤ shr_m mrs.
Proof.
  intros Hd.
  unfold shr_fexp, fexp, emin, prec, emax.
  cbn [Zdigits2 shr_record_of_loc].
  rewrite Z.add_0_r, Z.sub_0_r, Z.max_l by lia.
  destruct (Z.pos (digits2_pos m) - 53) as [|p|p] eqn:Hp; [lia| |lia].
  cbn [shr]. eexists. split; [reflexivity|]. split.
  - rewrite iter_shr_1_digits. cbn [shr_m Zdigits2]. lia.
  - apply iter_shr_1_nonneg. cbn. lia.
Qed.

(** An [int] of 54 to 1023 bits is rounded to a float in range. *)
Lemma binary_round_aux_no_overflow (s : bool) (m : positive) :
  53 < Zpos (digits2_pos m) ≤ 1023 →
  ∀ s', binary_round_aux prec emax s (Zpos m) 0 loc_Exact ≠ S754_infinity s'.
Proof.
  intros Hd s'.
  unfold binary_round_aux.
  destruct (shr_fexp_large m) as (mrs & -> & Hdig & Hnn); [lia|].
  destruct (round_nearest_even_digits (shr_m mrs) (loc_of_shr_record mrs) Hnn)
    as [Hr0 Hrd].
  set (m2 := round_nearest_even _ _) in *.
  unfold shr_fexp, fexp, emin, prec, emax. cbn [shr_record_of_loc].
  set (e := Z.pos (digits2_pos m) - 53) in *.
  set (n := Z.max _ _ - _).
  assert (Hn : n ≤ 1) by (unfold n; lia).
  unfold shr. destruct n as [|q|q] eqn:Hq.
  - cbn [shr_m]. destruct m2; try done.
    destruct (Z.leb_spec e (1024 - 53)); [done|lia].
  - destruct (shr_m (SpecFloat.iter_pos shr_1 q _)); try done.
    destruct (Z.leb_spec (e + Z.pos q) (1024 - 53)); [done|lia].
  - cbn [shr_m]. destruct m2; try done.
    destruct (Z.leb_spec e (1024 - 53)); [done|lia].
Qed.

Lemma binary_round_no_overflow (s : bool) (m : positive) :
  Zpos m < 2 ^ 1023 →
  ∀ s', binary_round prec emax s m 0 ≠ S754_infinity s'.
Proof.
  intros Hm s'. pose proof (digits2_pos_le m 1023 Hm) as Hd.
  destruct (Z_le_gt_dec (Zpos (digits2_pos m)) 53) as [Hs|Hl].
  - destruct (binary_round_small s m Hs) as (m' & e' & ->). done.
  - unfold binary_round. rewrite Z.add_0_r.
    unfold fexp at 1. unfold emin, prec, emax.
    rewrite Z.max_l by lia.
    unfold shl_align. rewrite Z.sub_0_r.
    destruct (Z.pos (digits2_pos m) - 53) as [|p|p] eqn:Hp; [lia| |lia].
    apply binary_round_aux_no_overflow. lia.
Qed.

(** [float(k)] does not raise for an [int] below [2^1023] in magnitude. *)
Lemma float_of_int_below_2_1023 (k : Z) :
  Z.abs k < 2 ^ 1023 → ∃ kf, float_of_int k = Ret kf.
Proof.
  intros Hk. unfold float_of_int, binary_normalize.
  destruct k as [|m|m]; [by eexists| |].
  - pose proof (binary_round_no_overflow false m ltac:(lia)) as Hno.
    destruct (binary_round prec emax false m 0); try by eexists.
    by destruct (Hno s).
  - pose proof (binary_round_no_overflow true m ltac:(lia)) as Hno.
    destruct (binary_round prec emax true m 0); try by eexists.
    by destruct (Hno s).
Qed.

(** *** The booking workflow *)

Section Booking_workflow.
Context `{Builtins}.

(** What [book_trip] does once the trip is found and has a seat, the
    request is a [dict], its passenger count coerces to [k] and [k]
    converts to a float: the booking is appended and the seats of the
    trip at index [i] drop by [k]. *)
Lemma book_trip_accepts (s : store) (trip_id uuid now : string)
    (kvs : gmap string json) (i : nat) (trip : Trip.t) (k : Z) (kf : float) :
  find_trip trip_id (trips s) = Some (i, trip) →
  0 < Trip.availableSeats trip →
  py_int (default (JInt 1) (kvs !! "passengerCount")) = Ret k →
  float_of_int k = Ret kf →
  let booking :=
    Booking.mk uuid trip_id (default (JStr "demo-user") (kvs !! "userId")) k
      "confirmed" now (SFmul prec emax (Trip.pricePerPerson trip) kf) in
  book_trip trip_id uuid now (JObj kvs) s =
    (Success 201 (mk_trip_booked "Trip booked successfully" booking),
     mk_store
       (<[i := Trip.set_availableSeats (Trip.availableSeats trip - k) trip]>
          (trips s))
       (bookings s ++ [booking]) (users s)).
Proof.
  intros Hfind Hseats Hk Hkf booking.
  assert (Hi : trips s !! i = Some trip).
  { apply list_find_Some in Hfind. tauto. }
  unfold book_trip, try_except, mbind, action_bind, read_trips, lift,
    float_mul_int, get.
  cbn [mbind py_bind]. rewrite Hfind.
  destruct (Z.leb_spec (Trip.availableSeats trip) 0) as [Hle|_]; [lia|].
  unfold mbind, py_bind. rewrite Hk, Hkf. cbn.
  unfold trip_sub_availableSeats, mret, action_ret. cbn.
  do 2 f_equal. f_equal.
  apply list_eq. intros j. destruct (decide (i = j)) as [<-|Hne].
  - rewrite list_lookup_alter_eq, Hi.
    rewrite list_lookup_insert_eq by (eapply lookup_lt_Some; eauto). done.
  - rewrite list_lookup_alter_ne, list_lookup_insert_ne by done. done.
Qed.

(** What a request reads as its passenger count when it is read at all. *)
Lemma passengerCount_dict (data : json) (k : Z) :
  get data "passengerCount" (JInt 1) ≫= py_int = Ret k →
  ∃ kvs, data = JObj kvs ∧
         py_int (default (JInt 1) (kvs !! "passengerCount")) = Ret k.
Proof.
  destruct data; cbn; try discriminate. intros Hk. eauto.
Qed.

(** A booking that succeeds went through every step of the workflow. *)
Lemma book_trip_success_inv (s s' : store) (trip_id uuid now : string)
    (data : json) (status : Z) (body : trip_booked) :
  book_trip trip_id uuid now data s = (Success status body, s') →
  ∃ i trip kvs k kf,
    find_trip trip_id (trips s) = Some (i, trip) ∧
    0 < Trip.availableSeats trip ∧
    data = JObj kvs ∧
    py_int (default (JInt 1) (kvs !! "passengerCount")) = Ret k ∧
    float_of_int k = Ret kf.
Proof.
  unfold book_trip, try_except, mbind, action_bind, read_trips, lift,
    float_mul_int.
  cbn [mbind py_bind].
  destruct (find_trip trip_id (trips s)) as [[i trip]|] eqn:Hfind;
    [|discriminate].
  destruct (Z.leb_spec (Trip.availableSeats trip) 0) as [Hle|Hlt];
    [discriminate|].
  destruct data as [| | | | | |kvs]; cbn; try discriminate.
  destruct (py_int (default (JInt 1) (kvs !! "passengerCount")))
    as [k|e] eqn:Hk; cbn; [|discriminate].
  destruct (float_of_int k) as [kf|e] eqn:Hkf; cbn; [|discriminate].
  intros _. exists i, trip, kvs, k, kf. done.
Qed.

(** The fields that [set_availableSeats] leaves alone are all the others. *)
Lemma same_but_seats_fields (t t' : Trip.t) :
  same_but_seats t t' ↔
    Trip.id t = Trip.id t' ∧
    Trip.driverName t = Trip.driverName t' ∧
    Trip.driverRating t = Trip.driverRating t' ∧
    Trip.route t = Trip.route t' ∧
    Trip.departureCity t = Trip.departureCity t' ∧
    Trip.destinationCity t = Trip.destinationCity t' ∧
    Trip.departureTime t = Trip.departureTime t' ∧
    Trip.totalSeats t = Trip.totalSeats t' ∧
    Trip.pricePerPerson t = Trip.pricePerPerson t' ∧
    Trip.estimatedDuration t = Trip.estimatedDuration t' ∧
    Trip.carModel t = Trip.carModel t' ∧
    Trip.amenities t = Trip.amenities t' ∧
    Trip.pickupPoints t = Trip.pickupPoints t' ∧
    Trip.description t = Trip.description t'.
Proof.
  destruct t, t'. unfold same_but_seats, Trip.set_availableSeats. cbn.
  split.
  - intros [= -> -> -> -> -> -> -> -> -> -> -> -> -> ->]. done.
  - intros (-> & -> & -> & -> & -> & -> & -> & -> & -> & -> & -> & -> & -> & ->).
    done.
Qed.

Lemma same_but_seats_refl (t : Trip.t) : same_but_seats t t.
Proof. done. Qed.

Lemma same_but_seats_set (n : Z) (t : Trip.t) :
  same_but_seats t (Trip.set_availableSeats n t).
Proof. by destruct t. Qed.

Lemma trips_kept_refl (s : store) : trips_kept s s.
Proof.
  split; [done|]. intros j t Hj. exists t. auto using same_but_seats_refl.
Qed.

(** **** C3 *)


(** **** C4 *)


(** **** C2 *)


(** **** C10 *)


(** Below [2^1023] seats the conversion cannot fail and every request
    within capacity is booked. *)
Corollary booking_within_capacity_below_2_1023 (s : store)
    (trip_id uuid now : string) (data : json) (i : nat) (trip : Trip.t)
    (k : Z) :
  find_trip trip_id (trips s) = Some (i, trip) →
  Trip.availableSeats trip < 2 ^ 1023 →
  get data "passengerCount" (JInt 1) ≫= py_int = Ret k →
  1 ≤ k ≤ Trip.availableSeats trip →
  ∃ booking s',
    book_trip trip_id uuid now data s =
      (Success 201 (mk_trip_booked "Trip booked successfully" booking), s') ∧
    trips s' !! i =
      Some (Trip.set_availableSeats (Trip.availableSeats trip - k) trip) ∧
    bookings s' = (bookings s ++ [booking])%list.
Proof.
  intros Hfind Hsmall Hk Hrange.
  destruct (float_of_int_below_2_1023 k) as [kf Hkf]; [lia|].
  destruct (passengerCount_dict _ _ Hk) as (kvs & -> & Hk').
  eexists _, _. split.
  { apply (book_trip_accepts s trip_id uuid now kvs i trip k kf); auto; lia. }
  cbn. split; [|done].
  apply list_lookup_insert_eq.
  apply list_find_Some in Hfind as (Hi & _). eapply lookup_lt_Some; eauto.
Qed.

(** Likewise every count from [-2^1023] up to zero is accepted and gives
    seats back. *)
Corollary nonpositive_count_above_minus_2_1023 (s : store)
    (trip_id uuid now : string) (data : json) (i : nat) (trip : Trip.t)
    (k : Z) :
  find_trip trip_id (trips s) = Some (i, trip) →
  0 < Trip.availableSeats trip →
  get data "passengerCount" (JInt 1) ≫= py_int = Ret k →
  - 2 ^ 1023 < k ≤ 0 →
  ∃ booking s',
    book_trip trip_id uuid now data s =
      (Success 201 (mk_trip_booked "Trip booked successfully" booking), s') ∧
    Booking.passengerCount booking = k ∧
    trips s' !! i =
      Some (Trip.set_availableSeats (Trip.availableSeats trip - k) trip) ∧
    bookings s' = (bookings s ++ [booking])%list.
Proof.
  intros Hfind Hpos Hk Hrange.
  destruct (float_of_int_below_2_1023 k) as [kf Hkf]; [lia|].
  destruct (passengerCount_dict _ _ Hk) as (kvs & -> & Hk').
  eexists _, _. split.
  { apply (book_trip_accepts s trip_id uuid now kvs i trip k kf); auto. }
  cbn. split; [done|]. split; [|done].
  apply list_lookup_insert_eq.
  apply list_find_Some in Hfind as (Hi & _). eapply lookup_lt_Some; eauto.
Qed.

(** **** C9, the booking part *)

(** A booking that succeeds appends exactly one record to the bookings,
    leaves the users alone, and changes the trips at one place only: the
    first trip with the identifier, which differs from what it was at
    most in [availableSeats]. *)
Lemma book_trip_frame (s s' : store) (trip_id uuid now : string)
    (data : json) (status : Z) (body : trip_booked) :
  book_trip trip_id uuid now data s = (Success status body, s') →
  ∃ i trip trip',
    find_trip trip_id (trips s) = Some (i, trip) ∧
    trips s' = <[i := trip']> (trips s) ∧
    same_but_seats trip trip' ∧
    (∀ j, j ≠ i → trips s' !! j = trips s !! j) ∧
    length (trips s') = length (trips s) ∧
    bookings s' = (bookings s ++ [tb_booking body])%list ∧
    users s' = users s.
Proof.
  intros Hbook.
  destruct (book_trip_success_inv _ _ _ _ _ _ _ _ Hbook)
    as (i & trip & kvs & k & kf & Hfind & Hpos & -> & Hk & Hkf).
  rewrite (book_trip_accepts s trip_id uuid now kvs i trip k kf) in Hbook
    by done.
  injection Hbook as <- <- <-.
  exists i, trip, (Trip.set_availableSeats (Trip.availableSeats trip - k) trip).
  cbn. split_and!;
    first [ done
          | apply same_but_seats_set
          | apply length_insert
          | intros j Hne; by apply list_lookup_insert_ne ].
Qed.

(** The availability check looks at the trip alone: a request for more
    passengers than seats remain is booked like any other and leaves the
    seat count below zero. *)
Lemma booking_beyond_capacity (s : store) (trip_id uuid now : string)
    (kvs : gmap string json) (i : nat) (trip : Trip.t) (k : Z) (kf : float) :
  find_trip trip_id (trips s) = Some (i, trip) →
  0 < Trip.availableSeats trip < k →
  py_int (default (JInt 1) (kvs !! "passengerCount")) = Ret k →
  float_of_int k = Ret kf →
  ∃ body s' trip',
    book_trip trip_id uuid now (JObj kvs) s = (Success 201 body, s') ∧
    trips s' !! i = Some trip' ∧
    Trip.availableSeats trip' < 0.
Proof.
  intros Hfind Hseats Hk Hkf.
  eexists _, _, (Trip.set_availableSeats (Trip.availableSeats trip - k) trip).
  split.
  { apply (book_trip_accepts s trip_id uuid now kvs i trip k kf); auto; lia. }
  cbn. split; [|lia].
  apply list_lookup_insert_eq.
  apply list_find_Some in Hfind as (Hi & _). eapply lookup_lt_Some; eauto.
Qed.

(** **** C1 *)

(** C1: the seat count does go negative.  On the sample data, trip [3]
    has one seat left; a booking for two passengers passes the
    availability check, is recorded, and leaves the trip with
    [availableSeats = -1]. *)
Theorem C1_overbooking_leaves_negative_seats (uuid now : string) :
  ∃ trip booking s' trip',
    find_trip "3" (trips initial_store) = Some (2%nat, trip) ∧
    Trip.availableSeats trip = 1 ∧
    book_trip "3" uuid now (JObj {[ "passengerCount" := JInt 2 ]})
      initial_store =
      (Success 201 (mk_trip_booked "Trip booked successfully" booking), s') ∧
    Booking.passengerCount booking = 2 ∧
    find_trip "3" (trips s') = Some (2%nat, trip') ∧
    Trip.availableSeats trip' = -1.
Proof.
  eexists _, _, _, _. split; [reflexivity|]. split; [reflexivity|]. split.
  { eapply (book_trip_accepts initial_store "3" uuid now
              {[ "passengerCount" := JInt 2 ]} 2 _ 2);
      [reflexivity | reflexivity | reflexivity | vm_compute; reflexivity]. }
  split; [reflexivity|]. split; reflexivity.
Qed.

End Booking_workflow.

(** *** The search filter *)






Section Search.
Context `{Builtins}.



(** **** C5 *)


(** **** C6 *)


End Search.

(** *** Trip creation *)

(** The placeholder rating is the float that the literal [4.5] denotes. *)
Lemma float_4_5_literal : float_4_5 = float_lit 45 10.
Proof. vm_compute. reflexivity. Qed.

Section Creation.
Context `{Builtins}.

(** What [create_trip] does with a [dict] whose seat count and price
    coerce. *)
Lemma create_trip_accepts (s : store) (uuid : string)
    (kvs : gmap string json) (n : Z) (p : float) :
  py_int (default (JInt 1) (kvs !! "seats")) = Ret n →
  py_float (default (JInt 0) (kvs !! "price")) = Ret p →
  let new_trip :=
    Trip.mk uuid (default (JStr "Anonymous") (kvs !! "driverName")) float_4_5
      (py_str (default (JStr "") (kvs !! "from")) ++ " → " ++
       py_str (default (JStr "") (kvs !! "to")))
      (default (JStr "") (kvs !! "from")) (default (JStr "") (kvs !! "to"))
      (default (JStr "") (kvs !! "departureTime")) n n p
      (default (JStr "TBD") (kvs !! "duration"))
      (default (JStr "Standard Vehicle") (kvs !! "carModel"))
      (default (JArr []) (kvs !! "amenities"))
      (default (JArr []) (kvs !! "pickupPoints"))
      (default (JStr "") (kvs !! "description")) in
  create_trip uuid (JObj kvs) s =
    (Success 201 (mk_trip_created "Trip created successfully" new_trip),
     mk_store (trips s ++ [new_trip]) (bookings s) (users s)).
Proof.
  intros Hn Hp new_trip.
  unfold create_trip, try_except, mbind, action_bind, lift, get.
  cbn [mbind py_bind]. unfold mbind, py_bind. rewrite Hn, Hp. reflexivity.
Qed.

(** The stores after [create_trip]: as they were, or those of a request
    that was accepted. *)
Lemma create_trip_store (s : store) (uuid : string) (data : json) :
  snd (create_trip uuid data s) = s ∨
  ∃ kvs n p,
    data = JObj kvs ∧
    py_int (default (JInt 1) (kvs !! "seats")) = Ret n ∧
    py_float (default (JInt 0) (kvs !! "price")) = Ret p.
Proof.
  destruct data as [| | | | | |kvs]; try (left; reflexivity).
  destruct (py_int (default (JInt 1) (kvs !! "seats"))) as [n|e] eqn:Hn.
  - destruct (py_float (default (JInt 0) (kvs !! "price"))) as [p|e] eqn:Hp.
    + right. by exists kvs, n, p.
    + left. unfold create_trip, try_except, mbind, action_bind, lift, get.
      cbn [mbind py_bind]. unfold mbind, py_bind. rewrite Hn, Hp. reflexivity.
  - left. unfold create_trip, try_except, mbind, action_bind, lift, get.
    cbn [mbind py_bind]. unfold mbind, py_bind. rewrite Hn. reflexivity.
Qed.

(** **** C7 *)


End Creation.

(** *** The bookings of a user *)

Lemma json_eq_str_true (v : json) (s : string) :
  json_eq_str v s = true ↔ v = JStr s.
Proof.
  destruct v; cbn; try (split; [discriminate|congruence]).
  rewrite String.eqb_eq. split; congruence.
Qed.

(** The loop of [get_user_bookings] keeps, in order, the bookings whose
    trip is found. *)
Lemma add_trip_details_omap (ts : list Trip.t) (l : list Booking.t) :
  add_trip_details ts l =
    omap (fun b => mk_detailed b <$> trip_of ts b) l.
Proof.
  unfold add_trip_details.
  enough (Hgen : ∀ acc,
    fold_left
      (fun detailed_bookings booking =>
         match find_trip (Booking.tripId booking) ts with
         | Some (_, trip) =>
             (detailed_bookings ++ [mk_detailed booking trip])%list
         | None => detailed_bookings
         end) l acc
    = (acc ++ omap (fun b => mk_detailed b <$> trip_of ts b) l)%list).
  { apply (Hgen []). }
  induction l as [|b l IH]; intros acc; cbn.
  - by rewrite app_nil_r.
  - rewrite IH. unfold trip_of.
    destruct (find_trip (Booking.tripId b) ts) as [[i t]|]; cbn; [|done].
    by rewrite <- app_assoc.
Qed.




Section User_bookings.
Context `{Builtins}.

(** **** C8 *)


End User_bookings.

(** *** What the operations leave alone *)

Section Frame.
Context `{Builtins}.

(** The stores after [book_trip]: as they were, or with one booking more
    and the seats of one trip changed. *)
Lemma book_trip_store (s : store) (trip_id uuid now : string) (data : json) :
  snd (book_trip trip_id uuid now data s) = s ∨
  ∃ status body, book_trip trip_id uuid now data s =
    (Success status body, snd (book_trip trip_id uuid now data s)).
Proof.
  destruct (find_trip trip_id (trips s)) as [[i trip]|] eqn:Hfind.
  2:{ left. unfold book_trip, try_except, mbind, action_bind, read_trips.
      by rewrite Hfind. }
  destruct (Z.leb_spec (Trip.availableSeats trip) 0) as [Hle|Hlt].
  { left. unfold book_trip, try_except, mbind, action_bind, read_trips.
    rewrite Hfind.
    destruct (Z.leb_spec (Trip.availableSeats trip) 0); [done|lia]. }
  destruct data as [| | | | | |kvs];
    try (left; unfold book_trip, try_except, mbind, action_bind, read_trips,
           lift; rewrite Hfind;
         destruct (Z.leb_spec (Trip.availableSeats trip) 0); [lia|];
         reflexivity).
  destruct (py_int (default (JInt 1) (kvs !! "passengerCount")))
    as [k|e] eqn:Hk.
  2:{ left. unfold book_trip, try_except, mbind, action_bind, read_trips,
        lift, get. rewrite Hfind.
      destruct (Z.leb_spec (Trip.availableSeats trip) 0); [lia|].
      cbn [mbind py_bind]. unfold mbind, py_bind. by rewrite Hk. }
  destruct (float_of_int k) as [kf|e] eqn:Hkf.
  2:{ left. unfold book_trip, try_except, mbind, action_bind, read_trips,
        lift, get, float_mul_int. rewrite Hfind.
      destruct (Z.leb_spec (Trip.availableSeats trip) 0); [lia|].
      cbn [mbind py_bind]. unfold mbind, py_bind. by rewrite Hk, Hkf. }
  right. rewrite (book_trip_accepts s trip_id uuid now kvs i trip k kf) by done.
  eauto.
Qed.

(** A search reads the trips and changes nothing. *)
Lemma search_trips_store (s : store) (args : gmap string string) :
  snd (search_trips args s) = s.
Proof.
  unfold search_trips, try_except, mbind, action_bind, read_trips, lift,
    mret, action_ret.
  cbn.
  repeat (match goal with
          | |- context [nonempty ?x] => destruct (nonempty x)
          | |- context [filter_py ?p ?l] => destruct (filter_py p l)
          end; cbn);
    reflexivity.
Qed.

(** No request removes a trip or changes anything of a trip but its seat
    count. *)
Lemma serve_keeps_trips (r : request) (s : store) : trips_kept s (serve r s).
Proof.
  destruct r as [|now| |args|uuid data|trip_id uuid now data|user_id]; cbn;
    try apply trips_kept_refl.
  - rewrite search_trips_store. apply trips_kept_refl.
  - destruct (create_trip_store s uuid data)
      as [->|(kvs & n & p & -> & Hn & Hp)];
      [apply trips_kept_refl|].
    rewrite (create_trip_accepts s uuid kvs n p) by done.
    split; cbn.
    + rewrite length_app. lia.
    + intros j t' Hj. exists t'. split; [|apply same_but_seats_refl].
      by apply lookup_app_l_Some.
  - destruct (book_trip_store s trip_id uuid now data) as [->|(st & body & Hb)];
      [apply trips_kept_refl|].
    destruct (book_trip_frame _ _ _ _ _ _ _ _ Hb)
      as (i & trip & trip' & Hfind & Htrips & Hsame & Hother & Hlen & _).
    split; [lia|].
    intros j t Hj. destruct (decide (j = i)) as [->|Hne].
    + exists trip'. split.
      * rewrite Htrips. apply list_lookup_insert_eq.
        by eapply lookup_lt_Some.
      * apply list_find_Some in Hfind as (Hi & _). congruence.
    + exists t. rewrite Hother by done. auto using same_but_seats_refl.
Qed.

(** Text cities are kept by every request that does not itself bring a
    city that is not text. *)
Lemma serve_keeps_text_cities (r : request) (s : store) :
  text_request r →
  Forall text_cities (trips s) →
  Forall text_cities (trips (serve r s)).
Proof.
  intros Hr Hs.
  destruct r as [|now| |args|uuid data|trip_id uuid now data|user_id]; cbn;
    try done.
  - by rewrite search_trips_store.
  - destruct (create_trip_store s uuid data)
      as [->|(kvs & n & p & -> & Hn & Hp)]; [done|].
    rewrite (create_trip_accepts s uuid kvs n p) by done. cbn.
    apply Forall_app. split; [done|]. apply Forall_singleton. exact Hr.
  - destruct (book_trip_store s trip_id uuid now data) as [->|(st & body & Hb)];
      [done|].
    destruct (book_trip_frame _ _ _ _ _ _ _ _ Hb)
      as (i & trip & trip' & Hfind & -> & Hsame & _).
    apply Forall_insert; [done|].
    apply list_find_Some in Hfind as (Hi & _).
    eapply Forall_lookup_1 in Hs; [|exact Hi].
    apply same_but_seats_fields in Hsame
      as (_ & _ & _ & _ & Hdep & Hdst & _).
    unfold text_cities in *. by rewrite <- Hdep, <- Hdst.
Qed.

(** **** C9 *)

(** C9: a booking that succeeds appends exactly one record to the
    bookings and changes nothing else but the [availableSeats] of the
    first trip with the given identifier: that trip's other fields, the
    other trips and the users are as before; and whatever the request,
    every trip of the store is still there afterwards, at its place, with
    at most its seat count changed. *)
Theorem C9_booking_frame_no_deletion :
  (∀ (s s' : store) (trip_id uuid now : string) (data : json)
     (status : Z) (body : trip_booked),
     book_trip trip_id uuid now data s = (Success status body, s') →
     ∃ i trip trip',
       find_trip trip_id (trips s) = Some (i, trip) ∧
       trips s' = <[i := trip']> (trips s) ∧
       same_but_seats trip trip' ∧
       (∀ j, j ≠ i → trips s' !! j = trips s !! j) ∧
       length (trips s') = length (trips s) ∧
       bookings s' = (bookings s ++ [tb_booking body])%list ∧
       users s' = users s) ∧
  (∀ (r : request) (s : store), trips_kept s (serve r s)).
Proof.
  split.
  - intros s s' trip_id uuid now data status body Hbook.
    by eapply book_trip_frame.
  - apply serve_keeps_trips.
Qed.

End Frame.

(** *** The properties at work on the sample data *)

Section Scenarios.
#[local] Existing Instance Runtime.builtins.


(** Where [float(k)] stops: the last [int] that converts and the first
    that does not. *)
Lemma float_of_int_last :
  ∃ f, float_of_int (2 ^ 1024 - 2 ^ 970 - 1) = Ret f.
Proof. eexists. vm_compute. reflexivity. Qed.

Lemma float_of_int_first_overflow :
  float_of_int (2 ^ 1024 - 2 ^ 970) = Raise OverflowError.
Proof. vm_compute. reflexivity. Qed.








Example boston_finds_two :
  List.filter (free_text_matchb "Boston") (trips initial_store) =
    [sample_trip_1; sample_trip_2].
Proof. vm_compute. reflexivity. Qed.



(** The booking of one seat of trip [2]. *)
Lemma C9_witness_one_seat_of_trip_2 :
  let body :=
    mk_trip_booked "Trip booked successfully"
      (Booking.mk "b-1" "2" (JStr "demo-user") 1 "confirmed"
         "2025-06-01T12:00:00" (float_lit 50 1)) in
  let s' :=
    mk_store [sample_trip_1; Trip.set_availableSeats 1 sample_trip_2;
              sample_trip_3]
      [tb_booking body] sample_users in
  ∃ i trip trip',
    find_trip "2" (trips initial_store) = Some (i, trip) ∧
    trips s' = <[i := trip']> (trips initial_store) ∧
    same_but_seats trip trip' ∧
    (∀ j, j ≠ i → trips s' !! j = trips initial_store !! j) ∧
    length (trips s') = length (trips initial_store) ∧
    bookings s' = (bookings initial_store ++ [tb_booking body])%list ∧
    users s' = users initial_store.
Proof.
  apply (proj1 C9_booking_frame_no_deletion initial_store _ "2" "b-1"
           "2025-06-01T12:00:00" (JObj ∅) 201).
  vm_compute. reflexivity.
Defined.


(** The walk through both workflows: create a trip with two seats at 20,
    book one seat, and look the booking up. *)
Example create_then_book :
  let s1 := store_with_albany_trip in
  let r := book_trip "t-4" "b-1" "2025-06-01T12:00:00"
             (JObj {[ "passengerCount" := JInt 1 ]}) s1 in
  (Trip.availableSeats <$> trips (snd r) !! 3%nat) = Some 1 ∧
  (Booking.totalPrice <$> bookings (snd r) !! 0%nat) = Some (float_lit 20 1) ∧
  ∃ d, fst (get_user_bookings "demo-user" (snd r)) =
         Success 200 (mk_booking_list [d] 1) ∧
       Trip.id (db_trip d) = "t-4".
Proof.
  split; [vm_compute; reflexivity|]. split; [vm_compute; reflexivity|].
  eexists. split; vm_compute; reflexivity.
Qed.

End Scenarios.

(** ** Further properties *)

(** *** The search with all its filters *)

Lemma filter_py_sublist {A : Type} (p : A → py bool) (l r : list A) :
  filter_py p l = Ret r → sublist r l.
Proof.
  revert r. induction l as [|x l IH]; intros r; cbn.
  - intros [= <-]. constructor.
  - destruct (p x) as [b|e]; cbn; [|discriminate].
    destruct (filter_py p l) as [r'|e]; cbn; [|discriminate].
    intros [= <-]. destruct b; constructor; auto.
Qed.





Section Search_filters.
Context `{Builtins}.







(** The search is its three steps and changes no store. *)
Lemma search_trips_stages (s : store) (args : gmap string string) :
  let query := lower (default "" (args !! "q")) in
  let departure := lower (default "" (args !! "from")) in
  let destination := lower (default "" (args !! "to")) in
  search_trips args s =
    (match search_stages query departure destination (trips s) with
     | Ret found =>
         Success 200
           (mk_search_result found (Z.of_nat (length found))
              query departure destination)
     | Raise e => Failure 500 (StrOf e)
     end, s).
Proof.
  cbn zeta.
  unfold search_trips, search_stages, search_stage, try_except, mbind,
    action_bind, py_bind, read_trips, lift, mret, action_ret.
  repeat (match goal with
          | |- context [nonempty ?x] => destruct (nonempty x)
          | |- context [filter_py ?p ?l] => destruct (filter_py p l)
          end; cbn);
    reflexivity.
Qed.

Lemma search_stage_sublist (f : string) (p : Trip.t → py bool)
    (l r : list Trip.t) :
  search_stage f p l = Ret r → sublist r l.
Proof.
  unfold search_stage. destruct (nonempty f).
  - apply filter_py_sublist.
  - by intros [= <-].
Qed.


Lemma search_stages_sublist (q f t : string) (l r : list Trip.t) :
  search_stages q f t l = Ret r → sublist r l.
Proof.
  unfold search_stages, mbind, py_bind.
  destruct (search_stage q _ l) as [l1|] eqn:H1; [|discriminate].
  destruct (search_stage f _ l1) as [l2|] eqn:H2; [|discriminate].
  intros H3.
  apply search_stage_sublist in H1, H2, H3.
  by repeat (etrans; [eassumption|]).
Qed.


(** **** X1 *)


(** **** X2 *)

(** X2: whatever the store holds and whatever the parameters are, a
    search changes no store; when it succeeds the status is 200, the
    trips returned are trips of the store in the order of the store, and
    the count is their number. *)
Theorem X2_search_reads_only (s : store) (args : gmap string string) :
  snd (search_trips args s) = s ∧
  ∀ status body,
    fst (search_trips args s) = Success status body →
    status = 200 ∧
    sublist (sr_trips body) (trips s) ∧
    sr_count body = Z.of_nat (length (sr_trips body)).
Proof.
  rewrite search_trips_stages. cbn [fst snd]. split; [done|].
  intros status body.
  destruct (search_stages _ _ _ (trips s)) as [found|e] eqn:Hst;
    [|discriminate].
  intros [= <- <-]. cbn. split_and!; [done| |done].
  by eapply search_stages_sublist.
Qed.

(** **** X3 *)


End Search_filters.

(** *** Trip creation: refusals, defaults and lookups *)

Section Creation_outcomes.
Context `{Builtins}.

Lemma create_trip_not_dict (s : store) (uuid : string) (data : json) :
  (∀ kvs, data ≠ JObj kvs) →
  create_trip uuid data s = (Failure 400 (StrOf AttributeError), s).
Proof. intros Hd. destruct data; try reflexivity. by destruct (Hd kvs). Qed.

Lemma create_trip_bad_seats (s : store) (uuid : string)
    (kvs : gmap string json) (e : exn) :
  py_int (default (JInt 1) (kvs !! "seats")) = Raise e →
  create_trip uuid (JObj kvs) s = (Failure 400 (StrOf e), s).
Proof.
  intros Hn. unfold create_trip, try_except, mbind, action_bind, lift, get.
  cbn [mbind py_bind]. unfold mbind, py_bind. by rewrite Hn.
Qed.

Lemma create_trip_bad_price (s : store) (uuid : string)
    (kvs : gmap string json) (n : Z) (e : exn) :
  py_int (default (JInt 1) (kvs !! "seats")) = Ret n →
  py_float (default (JInt 0) (kvs !! "price")) = Raise e →
  create_trip uuid (JObj kvs) s = (Failure 400 (StrOf e), s).
Proof.
  intros Hn Hp. unfold create_trip, try_except, mbind, action_bind, lift, get.
  cbn [mbind py_bind]. unfold mbind, py_bind. by rewrite Hn, Hp.
Qed.

(** **** X4 *)


(** **** X5 *)

(** X5: what makes a creation request fail, and how.  A body that is not
    a JSON object fails with [AttributeError]; a seat count that [int]
    refuses, or a price that [float] refuses, fails with the exception of
    the coercion: [TypeError] for [null], a list or an object, a key
    present with [null] included, [ValueError] for a seat count of NaN,
    [OverflowError] for an infinite seat count.  The answer is 400 and
    the stores are as before. *)
Theorem X5_create_trip_refusals (s : store) (uuid : string) :
  (∀ data, (∀ kvs, data ≠ JObj kvs) →
     create_trip uuid data s = (Failure 400 (StrOf AttributeError), s)) ∧
  (∀ kvs e, py_int (default (JInt 1) (kvs !! "seats")) = Raise e →
     create_trip uuid (JObj kvs) s = (Failure 400 (StrOf e), s)) ∧
  (∀ kvs n e, py_int (default (JInt 1) (kvs !! "seats")) = Ret n →
     py_float (default (JInt 0) (kvs !! "price")) = Raise e →
     create_trip uuid (JObj kvs) s = (Failure 400 (StrOf e), s)) ∧
  (∀ kvs v, kvs !! "seats" = Some v →
     (v = JNull ∨ (∃ xs, v = JArr xs) ∨ (∃ o, v = JObj o) →
      create_trip uuid (JObj kvs) s = (Failure 400 (StrOf TypeError), s)) ∧
     (v = JFloat S754_nan →
      create_trip uuid (JObj kvs) s = (Failure 400 (StrOf ValueError), s)) ∧
     (∀ sign, v = JFloat (S754_infinity sign) →
      create_trip uuid (JObj kvs) s =
        (Failure 400 (StrOf OverflowError), s))).
Proof.
  split_and!.
  - intros data Hd. by apply create_trip_not_dict.
  - intros kvs e He. by apply create_trip_bad_seats.
  - intros kvs n e Hn He. by apply (create_trip_bad_price s uuid kvs n).
  - intros kvs v Hv. split_and!.
    + intros Hbad. apply create_trip_bad_seats. rewrite Hv. cbn.
      by destruct Hbad as [->|[[xs ->]|[o ->]]].
    + intros ->. apply create_trip_bad_seats. by rewrite Hv.
    + intros sign ->. apply create_trip_bad_seats. by rewrite Hv.
Qed.

(** **** X6 *)


(** How a trip identifier resolves once a trip is appended. *)
Lemma find_trip_app (trip_id : string) (ts : list Trip.t) (t : Trip.t) :
  find_trip trip_id (ts ++ [t]) =
    match find_trip trip_id ts with
    | Some r => Some r
    | None =>
        if decide (Trip.id t = trip_id) then Some (length ts, t) else None
    end.
Proof.
  unfold find_trip.
  destruct (list_find _ ts) as [[i x]|] eqn:Hfind.
  - by apply list_find_app_l.
  - rewrite list_find_app_r by done. cbn.
    by destruct (decide (Trip.id t = trip_id)).
Qed.

(** A creation that succeeds had a JSON object with a seat count and a
    price that coerce. *)
Lemma create_trip_success_inv (s s' : store) (uuid : string) (data : json)
    (status : Z) (body : trip_created) :
  create_trip uuid data s = (Success status body, s') →
  ∃ kvs n p,
    data = JObj kvs ∧
    py_int (default (JInt 1) (kvs !! "seats")) = Ret n ∧
    py_float (default (JInt 0) (kvs !! "price")) = Ret p.
Proof.
  destruct data as [| | | | | |kvs]; try discriminate.
  destruct (py_int (default (JInt 1) (kvs !! "seats"))) as [n|e] eqn:Hn.
  2:{ by rewrite (create_trip_bad_seats s uuid kvs e). }
  destruct (py_float (default (JInt 0) (kvs !! "price"))) as [p|e] eqn:Hp.
  2:{ by rewrite (create_trip_bad_price s uuid kvs n e). }
  intros _. by exists kvs, n, p.
Qed.

(** **** X7 *)

(** X7: looking a trip up after a creation.  Every identifier that
    resolved before resolves to the same trip at the same place; the
    new identifier resolves to the new trip, at the end of the list, if
    no earlier trip has it, and to the earlier trip otherwise, so that a
    trip created under an identifier already in use cannot be reached;
    any other identifier still resolves to nothing. *)
Theorem X7_lookup_after_create (s s' : store) (uuid : string) (data : json)
    (status : Z) (body : trip_created) :
  create_trip uuid data s = (Success status body, s') →
  ∀ trip_id,
    find_trip trip_id (trips s') =
      match find_trip trip_id (trips s) with
      | Some r => Some r
      | None =>
          if decide (uuid = trip_id)
          then Some (length (trips s), tc_trip body) else None
      end.
Proof.
  intros Hc trip_id.
  destruct (create_trip_success_inv _ _ _ _ _ _ Hc)
    as (kvs & n & p & -> & Hn & Hp).
  rewrite (create_trip_accepts s uuid kvs n p) in Hc by done.
  injection Hc as <- <- <-. cbn [trips tc_trip].
  by rewrite find_trip_app.
Qed.

(** **** X8 *)


End Creation_outcomes.

(** *** The booking workflow: refusals, defaults and sequences *)

(** Replacing a trip by one with the same identifier changes no lookup. *)
Lemma find_trip_insert (trip_id : string) (ts : list Trip.t) (i : nat)
    (t t' : Trip.t) :
  ts !! i = Some t →
  Trip.id t' = Trip.id t →
  find_trip trip_id (<[i := t']> ts) =
    (fun r => (r.1, if decide (r.1 = i) then t' else r.2))
      <$> find_trip trip_id ts.
Proof.
  intros Hi Hid. unfold find_trip.
  destruct (list_find _ ts) as [[j x]|] eqn:Hfind; cbn.
  - apply list_find_Some in Hfind as (Hj & Hx & Hleast).
    apply list_find_Some. destruct (decide (j = i)) as [->|Hne].
    + split_and!.
      * apply list_lookup_insert_eq. by eapply lookup_lt_Some.
      * rewrite Hi in Hj. injection Hj as ->. congruence.
      * intros k y Hk Hlt. rewrite list_lookup_insert_ne in Hk by lia. eauto.
    + split_and!.
      * by rewrite list_lookup_insert_ne.
      * done.
      * intros k y Hk Hlt. destruct (decide (k = i)) as [->|Hki].
        -- rewrite list_lookup_insert_eq in Hk by (by eapply lookup_lt_Some).
           injection Hk as <-. rewrite Hid. eauto.
        -- rewrite list_lookup_insert_ne in Hk by done. eauto.
  - apply list_find_None. apply list_find_None in Hfind.
    apply Forall_insert; [done|].
    eapply Forall_lookup_1 in Hfind; [|exact Hi]. cbn in *. congruence.
Qed.

Section Booking_outcomes.
Context `{Builtins}.





(** **** X9 *)



(** The trip a booking was charged to is found again, with its seats
    changed. *)
Lemma find_trip_after_booking (trip_id : string) (ts : list Trip.t)
    (i : nat) (trip : Trip.t) (n : Z) :
  find_trip trip_id ts = Some (i, trip) →
  find_trip trip_id (<[i := Trip.set_availableSeats n trip]> ts) =
    Some (i, Trip.set_availableSeats n trip).
Proof.
  intros Hfind. pose proof Hfind as (Hi & _)%list_find_Some.
  rewrite (find_trip_insert trip_id ts i trip) by (done || by destruct trip).
  rewrite Hfind. cbn. by rewrite decide_True.
Qed.

(** **** X10 *)

(** X10: every booking that is accepted, whatever its passenger count,
    answers 201 and records the fresh identifier, the trip identifier of
    the path, the [userId] of the body or [demo-user], the coerced
    passenger count, the status [confirmed], the time of the request and
    the price per person times the count; and the trip, looked up again,
    is the same trip with [availableSeats] lowered by exactly that
    count. *)
Theorem X10_accepted_booking (s s' : store) (trip_id uuid now : string)
    (data : json) (status : Z) (body : trip_booked) :
  book_trip trip_id uuid now data s = (Success status body, s') →
  ∃ i trip,
    let b := tb_booking body in
    find_trip trip_id (trips s) = Some (i, trip) ∧
    0 < Trip.availableSeats trip ∧
    status = 201 ∧
    tb_message body = "Trip booked successfully" ∧
    Booking.id b = uuid ∧
    Booking.tripId b = trip_id ∧
    get data "userId" (JStr "demo-user") = Ret (Booking.userId b) ∧
    get data "passengerCount" (JInt 1) ≫= py_int =
      Ret (Booking.passengerCount b) ∧
    Booking.status b = "confirmed" ∧
    Booking.bookingTime b = now ∧
    float_mul_int (Trip.pricePerPerson trip) (Booking.passengerCount b) =
      Ret (Booking.totalPrice b) ∧
    find_trip trip_id (trips s') =
      Some (i, Trip.set_availableSeats
                 (Trip.availableSeats trip - Booking.passengerCount b) trip).
Proof.
  intros Hbook.
  destruct (book_trip_success_inv _ _ _ _ _ _ _ _ Hbook)
    as (i & trip & kvs & k & kf & Hfind & Hpos & -> & Hk & Hkf).
  rewrite (book_trip_accepts s trip_id uuid now kvs i trip k kf) in Hbook
    by done.
  injection Hbook as <- <- <-.
  exists i, trip. cbn. split_and!; try done.
  - unfold float_mul_int. by rewrite Hkf.
  - by apply find_trip_after_booking.
Qed.

(** **** X11 *)


(** **** X12 *)



(** **** X13 *)


End Booking_outcomes.

(** *** What every sequence of requests keeps *)

Lemma same_but_seats_trans (t1 t2 t3 : Trip.t) :
  same_but_seats t1 t2 → same_but_seats t2 t3 → same_but_seats t1 t3.
Proof. unfold same_but_seats. congruence. Qed.

Lemma trips_kept_trans (s1 s2 s3 : store) :
  trips_kept s1 s2 → trips_kept s2 s3 → trips_kept s1 s3.
Proof.
  intros [Hl12 H12] [Hl23 H23]. split; [lia|].
  intros j t Hj. destruct (H12 j t Hj) as (t' & Hj' & Hs).
  destruct (H23 j t' Hj') as (t'' & Hj'' & Hs').
  exists t''. eauto using same_but_seats_trans.
Qed.

Section Runs.
Context `{Builtins}.

(** The three things a request can do to the stores: nothing; append one
    trip, with as many seats available as in total; or append one
    confirmed booking for the first trip with the identifier of the path
    and take its passengers off that trip's seats. *)
Lemma serve_cases (r : request) (s : store) :
  serve r s = s ∨
  (∃ uuid data t,
     r = PostTrip uuid data ∧
     Trip.id t = uuid ∧
     Trip.availableSeats t = Trip.totalSeats t ∧
     serve r s = mk_store (trips s ++ [t]) (bookings s) (users s)) ∨
  (∃ trip_id uuid now data i trip b,
     r = PostBook trip_id uuid now data ∧
     find_trip trip_id (trips s) = Some (i, trip) ∧
     0 < Trip.availableSeats trip ∧
     get data "passengerCount" (JInt 1) ≫= py_int =
       Ret (Booking.passengerCount b) ∧
     Booking.tripId b = trip_id ∧
     Booking.status b = "confirmed" ∧
     serve r s =
       mk_store
         (<[i := Trip.set_availableSeats
                   (Trip.availableSeats trip - Booking.passengerCount b)
                   trip]> (trips s))
         (bookings s ++ [b]) (users s)).
Proof.
  destruct r as [|now| |args|uuid data|trip_id uuid now data|user_id];
    cbn [serve]; try (left; reflexivity).
  - left. apply search_trips_store.
  - destruct (create_trip_store s uuid data)
      as [->|(kvs & n & p & -> & Hn & Hp)]; [by left|].
    right. left. rewrite (create_trip_accepts s uuid kvs n p) by done.
    eexists uuid, (JObj kvs), _. split_and!; [..|reflexivity]; done.
  - destruct (book_trip_store s trip_id uuid now data)
      as [->|(st & body & Hb)]; [by left|].
    right. right.
    destruct (book_trip_success_inv _ _ _ _ _ _ _ _ Hb)
      as (i & trip & kvs & k & kf & Hfind & Hpos & -> & Hk & Hkf).
    rewrite (book_trip_accepts s trip_id uuid now kvs i trip k kf) by done.
    exists trip_id, uuid, now, (JObj kvs), i, trip,
      (Booking.mk uuid trip_id (default (JStr "demo-user") (kvs !! "userId"))
         k "confirmed" now (SFmul prec emax (Trip.pricePerPerson trip) kf)).
    by split_and!.
Qed.

Lemma run_cons (r : request) (rs : list request) (s : store) :
  run (r :: rs) s = run rs (serve r s).
Proof. reflexivity. Qed.

(** **** X14 *)

(** X14: history is kept.  After any sequence of requests the bookings
    that were there are still there, unchanged and in front, with at most
    one more for each request; the users are as they were; and every
    trip is at its place with at most its seat count changed. *)
Theorem X14_history_is_kept (rs : list request) (s : store) :
  let s' := run rs s in
  bookings s `prefix_of` bookings s' ∧
  (length (bookings s') ≤ length (bookings s) + length rs)%nat ∧
  users s' = users s ∧
  trips_kept s s'.
Proof.
  cbn zeta. revert s. induction rs as [|r rs IH]; intros s.
  - cbn. split_and!; [done|lia|done|apply trips_kept_refl].
  - rewrite run_cons. destruct (IH (serve r s)) as (Hb & Hl & Hu & Ht).
    assert (Hstep : bookings s `prefix_of` bookings (serve r s) ∧
                    (length (bookings (serve r s)) ≤ S (length (bookings s)))%nat ∧
                    users (serve r s) = users s).
    { destruct (serve_cases r s)
        as [->|[(? & ? & ? & _ & _ & _ & ->)
               |(? & ? & ? & ? & ? & ? & b & _ & _ & _ & _ & _ & _ & ->)]];
        cbn; split_and!; try done; try lia.
      - by apply prefix_app_r.
      - rewrite length_app. cbn. lia. }
    destruct Hstep as (Hb1 & Hl1 & Hu1).
    split_and!.
    + by etrans.
    + cbn [length]. lia.
    + congruence.
    + eapply trips_kept_trans; [apply serve_keeps_trips|done].
Qed.

(** One request keeps the bookings with their trips, and confirmed. *)
Lemma serve_keeps_bookings_with_trips (r : request) (s : store) :
  bookings_refer_to_trips s ∧
  Forall (fun b => Booking.status b = "confirmed") (bookings s) →
  bookings_refer_to_trips (serve r s) ∧
  Forall (fun b => Booking.status b = "confirmed") (bookings (serve r s)).
Proof.
  intros [Href Hconf].
  destruct (serve_cases r s)
    as [->|[(uuid & data & t & _ & _ & _ & ->)
           |(trip_id & uuid & now & data & i & trip & b & _ & Hfind & _ & _
             & Hid & Hst & ->)]]; [done| |].
  - split; [|done].
    intros b Hb. destruct (Href b Hb) as (t' & Ht' & Hid).
    exists t'. split; [|done]. cbn. apply elem_of_app. by left.
  - split.
    + pose proof Hfind as (Hi & Hx & _)%list_find_Some.
      assert (Hkeep : ∀ x, (∃ t, t ∈ trips s ∧ Trip.id t = x) →
                ∃ t, t ∈ <[i := Trip.set_availableSeats
                     (Trip.availableSeats trip - Booking.passengerCount b)
                     trip]> (trips s) ∧ Trip.id t = x).
      { intros x (t & (j & Hj)%list_elem_of_lookup_1 & Ht).
        destruct (decide (j = i)) as [->|Hne].
        - eexists. split.
          + eapply list_elem_of_lookup_2. apply list_lookup_insert_eq.
            by eapply lookup_lt_Some.
          + rewrite Hi in Hj. injection Hj as <-. by destruct trip.
        - exists t. split; [|done]. eapply list_elem_of_lookup_2.
          by rewrite list_lookup_insert_ne. }
      intros b' [Hb'|Hb']%elem_of_app; cbn.
      * apply Hkeep. by apply Href.
      * apply list_elem_of_singleton in Hb' as ->.
        apply Hkeep. exists trip. split; [|congruence].
        by eapply list_elem_of_lookup_2.
    + cbn. apply Forall_app. split; [done|]. by apply Forall_singleton.
Qed.

(** **** X15 *)

(** X15: no booking is ever left without its trip.  If every booking of
    the store names a trip of the store and is confirmed, this is still
    so after any sequence of requests; with the sample data, which has no
    booking, it is so in every store the service can reach. *)
Theorem X15_bookings_keep_their_trips (rs : list request) (s : store) :
  bookings_refer_to_trips s →
  Forall (fun b => Booking.status b = "confirmed") (bookings s) →
  let s' := run rs s in
  bookings_refer_to_trips s' ∧
  Forall (fun b => Booking.status b = "confirmed") (bookings s').
Proof.
  cbn zeta. revert s. induction rs as [|r rs IH]; intros s Href Hconf;
    [done|].
  rewrite run_cons.
  destruct (serve_keeps_bookings_with_trips r s) as [Href' Hconf']; [done|].
  by apply IH.
Qed.

End Runs.

(** *** The bookings a user sees *)




Section Lookups.
Context `{Builtins}.

Lemma get_user_bookings_detailed (user_id : string) (s : store) :
  get_user_bookings user_id s =
    (Success 200
       (mk_booking_list (detailed_bookings_of user_id s)
          (Z.of_nat (length (detailed_bookings_of user_id s)))),
     s).
Proof.
  unfold get_user_bookings, try_except, mbind, action_bind, read_bookings,
    read_trips, detailed_bookings_of. cbn.
  by rewrite add_trip_details_omap.
Qed.

(** **** X16 *)



(** **** X17 *)


(** **** X18 *)


End Lookups.

(** *** Seats and identifiers along a sequence of requests *)

Lemma sum_app (l1 l2 : list Z) :
  foldr Z.add 0 (l1 ++ l2) = foldr Z.add 0 l1 + foldr Z.add 0 l2.
Proof. induction l1 as [|x l1 IH]; cbn; lia. Qed.

Lemma booked_app (ts : list Trip.t) (bs : list Booking.t) (b : Booking.t)
    (j : nat) :
  booked ts (bs ++ [b]) j =
    booked ts bs j +
    (if bool_decide (trip_index (Booking.tripId b) ts = Some j)
     then Booking.passengerCount b else 0).
Proof.
  unfold booked. rewrite List.filter_app, fmap_app, sum_app. cbn.
  destruct (bool_decide _); cbn; lia.
Qed.

Lemma booked_ext (ts ts' : list Trip.t) (bs : list Booking.t) (j : nat) :
  (∀ b, trip_index (Booking.tripId b) ts' = Some j ↔
        trip_index (Booking.tripId b) ts = Some j) →
  booked ts' bs j = booked ts bs j.
Proof.
  intros Hsame. unfold booked. do 2 f_equal.
  apply List.filter_ext. intros b. by apply bool_decide_ext.
Qed.

Lemma trip_index_insert (x : string) (ts : list Trip.t) (i : nat)
    (t t' : Trip.t) :
  ts !! i = Some t →
  Trip.id t' = Trip.id t →
  trip_index x (<[i := t']> ts) = trip_index x ts.
Proof.
  intros Hi Hid. unfold trip_index.
  rewrite (find_trip_insert x ts i t t') by done.
  by destruct (find_trip x ts) as [[j y]|].
Qed.

Lemma trip_index_app (x : string) (ts : list Trip.t) (t : Trip.t) (j : nat) :
  (j < length ts)%nat →
  trip_index x (ts ++ [t]) = Some j ↔ trip_index x ts = Some j.
Proof.
  intros Hj. unfold trip_index. rewrite find_trip_app.
  destruct (find_trip x ts) as [[k y]|]; cbn; [done|].
  destruct (decide (Trip.id t = x)); cbn; split; try done.
  intros [= <-]. lia.
Qed.

Lemma ids_insert (ts : list Trip.t) (i : nat) (t : Trip.t) (n : Z) :
  ts !! i = Some t →
  Trip.id <$> <[i := Trip.set_availableSeats n t]> ts = Trip.id <$> ts.
Proof.
  intros Hi. rewrite list_fmap_insert. apply list_insert_id.
  rewrite list_lookup_fmap, Hi. by destruct t.
Qed.

Section Seats.
Context `{Builtins}.

(** One request leaves the seats of every place of the list, free plus
    booked, as they were. *)
Lemma serve_conserves_seats (r : request) (s : store) (j : nat) :
  (j < length (trips s))%nat →
  seats_in_use_or_free (serve r s) j = seats_in_use_or_free s j.
Proof.
  intros Hj. unfold seats_in_use_or_free.
  destruct (serve_cases r s)
    as [->|[(uuid & data & t & _ & _ & _ & ->)
           |(trip_id & uuid & now & data & i & trip & b & _ & Hfind & _ & _
             & Hid & _ & ->)]]; [done| |]; cbn [trips bookings].
  - rewrite lookup_app_l by done.
    rewrite (booked_ext (trips s) (trips s ++ [t])); [done|].
    intros b. by apply trip_index_app.
  - pose proof Hfind as (Hi & _)%list_find_Some.
    rewrite booked_app.
    rewrite (booked_ext (trips s) (<[i := _]> (trips s)));
      [|intros b'; by rewrite (trip_index_insert _ (trips s) i trip)
                     by (done || by destruct trip)].
    rewrite (trip_index_insert _ (trips s) i trip)
      by (done || by destruct trip).
    assert (Hidx : trip_index (Booking.tripId b) (trips s) = Some i).
    { unfold trip_index. by rewrite Hid, Hfind. }
    rewrite Hidx.
    destruct (decide (j = i)) as [->|Hne].
    + rewrite list_lookup_insert_eq by done. rewrite Hi. cbn.
      rewrite bool_decide_true by done. f_equal. lia.
    + rewrite list_lookup_insert_ne by done.
      rewrite bool_decide_false by congruence.
      destruct (trips s !! j); cbn; [f_equal; lia|done].
Qed.

(** **** X19 *)

(** X19: seats are conserved.  For every trip of the store, the seats it
    has available plus the passengers of the bookings that name it (the
    first trip with the identifier of the booking) are the same after
    any sequence of requests as before: what the bookings take is exactly
    what the trip loses. *)
Theorem X19_seats_are_conserved (rs : list request) (s : store) (j : nat)
    (t : Trip.t) :
  trips s !! j = Some t →
  let s' := run rs s in
  ∃ t',
    trips s' !! j = Some t' ∧
    Trip.availableSeats t' + booked (trips s') (bookings s') j =
      Trip.availableSeats t + booked (trips s) (bookings s) j.
Proof.
  intros Hj. cbn zeta.
  assert (Hrun : seats_in_use_or_free (run rs s) j = seats_in_use_or_free s j).
  { assert (Hlt : (j < length (trips s))%nat) by (by eapply lookup_lt_Some).
    clear Hj. revert s Hlt. induction rs as [|r rs IH]; intros s Hlt; [done|].
    rewrite run_cons, IH.
    - by apply serve_conserves_seats.
    - destruct (serve_keeps_trips r s) as [Hlen _]. lia. }
  unfold seats_in_use_or_free in Hrun. rewrite Hj in Hrun. cbn in Hrun.
  destruct (trips (run rs s) !! j) as [t'|]; [|done].
  exists t'. split; [done|]. cbn in Hrun. by injection Hrun.
Qed.

(** **** X20 *)

(** X20: as long as no booking asks for a negative passenger count, no
    trip ever has more seats available than it has seats: this holds
    after any sequence of such requests if it held before. *)
Theorem X20_seats_within_total (rs : list request) (s : store) :
  Forall nonnegative_count rs →
  seats_within_total s →
  seats_within_total (run rs s).
Proof.
  intros Hrs. revert s. induction Hrs as [|r rs Hr _ IH]; intros s Hs;
    [done|].
  rewrite run_cons. apply IH. unfold seats_within_total in *.
  destruct (serve_cases r s)
    as [->|[(uuid & data & t & _ & _ & Hfull & ->)
           |(trip_id & uuid & now & data & i & trip & b & -> & Hfind & _ & Hk
             & _ & _ & ->)]]; [done| |]; cbn [trips].
  - apply Forall_app. split; [done|]. apply Forall_singleton. lia.
  - pose proof Hfind as (Hi & _)%list_find_Some.
    apply Forall_insert; [done|].
    eapply Forall_lookup_1 in Hs; [|exact Hi].
    pose proof (Hr _ Hk). destruct trip; cbn in *. lia.
Qed.

(** **** X21 *)

(** X21: identifiers stay distinct and every trip stays within reach.  If
    the trips have distinct identifiers and every creation in a sequence
    of requests brings an identifier not yet in use, then after the
    sequence the identifiers are still distinct, and the identifier of
    every trip resolves to that very trip. *)
Theorem X21_distinct_identifiers (rs : list request) (s : store) :
  NoDup (Trip.id <$> trips s) →
  fresh_uuids rs s →
  let s' := run rs s in
  NoDup (Trip.id <$> trips s') ∧
  ∀ i t, trips s' !! i = Some t → find_trip (Trip.id t) (trips s') = Some (i, t).
Proof.
  intros Hnd Hfresh. cbn zeta.
  assert (Hrun : NoDup (Trip.id <$> trips (run rs s))).
  { revert s Hnd Hfresh. induction rs as [|r rs IH]; intros s Hnd Hfresh;
      [done|].
    destruct Hfresh as [Hr Hfresh]. rewrite run_cons. apply IH; [|done].
    destruct (serve_cases r s)
      as [->|[(uuid & data & t & -> & Hid & _ & ->)
             |(trip_id & uuid & now & data & i & trip & b & _ & Hfind & _ & _
               & _ & _ & ->)]]; [done| |]; cbn [trips].
    - rewrite fmap_app. apply NoDup_app. split_and!; [done| |].
      + intros x (t' & -> & Ht')%list_elem_of_fmap Hx.
        apply list_elem_of_singleton in Hx. cbn in Hr.
        apply (Hr t' Ht'). congruence.
      + cbn. apply NoDup_singleton.
    - pose proof Hfind as (Hi & _)%list_find_Some.
      by rewrite ids_insert. }
  split; [done|].
  intros i t Hi. apply list_find_Some. split_and!; [done|done|].
  intros j y Hj Hlt Heq.
  assert (Hij : j = i); [|lia].
  eapply NoDup_lookup; [exact Hrun| |].
  - rewrite list_lookup_fmap, Hj. reflexivity.
  - rewrite list_lookup_fmap, Hi. cbn. by rewrite Heq.
Qed.

End Seats.

(** *** Creation and lookups seen through the other routes *)


Section Across_routes.
Context `{Builtins}.

(** **** X22 *)


(** **** X23 *)

(** X23: a booking whose [userId] is not a string is kept in the store
    but belongs to nobody: no lookup, for whatever user, lists it. *)
Theorem X23_booking_of_nobody (s : store) (b : Booking.t)
    (user_id : string) (status : Z) (body : booking_list) :
  (∀ u, Booking.userId b ≠ JStr u) →
  fst (get_user_bookings user_id s) = Success status body →
  b ∉ db_booking <$> bl_bookings body.
Proof.
  intros Hnobody. rewrite get_user_bookings_detailed. cbn [fst].
  intros [= <- <-]. cbn [bl_bookings].
  intros (d & -> & Hd)%list_elem_of_fmap.
  unfold detailed_bookings_of in Hd.
  apply list_elem_of_omap in Hd as (b' & Hb' & Hd).
  destruct (trip_of (trips s) b') as [t|]; [|done].
  injection Hd as <-. cbn in Hnobody.
  apply list_elem_of_In, filter_In in Hb' as [_ Hu].
  apply json_eq_str_true in Hu. by destruct (Hnobody user_id).
Qed.

End Across_routes.

(** *** The further properties at work on the sample data *)

Section Further_scenarios.
#[local] Existing Instance Runtime.builtins.


Example two_filters_find_trip_2 :
  fst (search_trips two_filters initial_store) =
    Success 200 (mk_search_result [sample_trip_2] 1 "new york" "boston" "").
Proof. vm_compute. reflexivity. Qed.



(** The new identifier resolves to the new trip, at place 3. *)
Lemma X7_witness_albany_lookup :
  find_trip "t-4" (trips store_with_albany_trip) =
    match find_trip "t-4" (trips initial_store) with
    | Some r => Some r
    | None =>
        if decide ("t-4" = "t-4")
        then Some (length (trips initial_store), albany_trip) else None
    end.
Proof.
  apply (X7_lookup_after_create initial_store store_with_albany_trip "t-4"
           (JObj albany_request) 201
           (mk_trip_created "Trip created successfully" albany_trip)).
  vm_compute. reflexivity.
Defined.



(** The booking of [alice]. *)
Lemma X10_witness_alice :
  let body :=
    mk_trip_booked "Trip booked successfully"
      (Booking.mk "b-1" "1" (JStr "alice") 2 "confirmed"
         "2025-06-01T12:00:00" (float_lit 90 1)) in
  ∃ i trip,
    let b := tb_booking body in
    find_trip "1" (trips initial_store) = Some (i, trip) ∧
    0 < Trip.availableSeats trip ∧
    201 = 201 ∧
    tb_message body = "Trip booked successfully" ∧
    Booking.id b = "b-1" ∧
    Booking.tripId b = "1" ∧
    get alice_request "userId" (JStr "demo-user") = Ret (Booking.userId b) ∧
    get alice_request "passengerCount" (JInt 1) ≫= py_int =
      Ret (Booking.passengerCount b) ∧
    Booking.status b = "confirmed" ∧
    Booking.bookingTime b = "2025-06-01T12:00:00" ∧
    float_mul_int (Trip.pricePerPerson trip) (Booking.passengerCount b) =
      Ret (Booking.totalPrice b) ∧
    find_trip "1" (trips store_with_alice_booking) =
      Some (i, Trip.set_availableSeats
                 (Trip.availableSeats trip - Booking.passengerCount b) trip).
Proof.
  apply (X10_accepted_booking initial_store store_with_alice_booking "1"
           "b-1" "2025-06-01T12:00:00" alice_request 201).
  vm_compute. reflexivity.
Defined.




(** The sample data has no booking yet. *)
Lemma initial_bookings_refer_to_trips : bookings_refer_to_trips initial_store.
Proof. intros b Hb. by apply elem_of_nil in Hb. Qed.

(** After the busy morning every booking still has its trip. *)
Lemma X15_witness_busy_morning :
  let s' := run busy_morning initial_store in
  bookings_refer_to_trips s' ∧
  Forall (fun b => Booking.status b = "confirmed") (bookings s').
Proof.
  apply (X15_bookings_keep_their_trips busy_morning initial_store);
    [exact initial_bookings_refer_to_trips | constructor].
Defined.


Example busy_morning_bookings :
  length (bookings (run busy_morning initial_store)) = 3%nat.
Proof. vm_compute. reflexivity. Qed.



(** Trip [1] over the busy morning: three seats, two of them booked. *)
Lemma X19_witness_trip_1 :
  let s' := run busy_morning initial_store in
  ∃ t',
    trips s' !! 0%nat = Some t' ∧
    Trip.availableSeats t' + booked (trips s') (bookings s') 0 =
      Trip.availableSeats sample_trip_1 +
      booked (trips initial_store) (bookings initial_store) 0.
Proof.
  apply (X19_seats_are_conserved busy_morning initial_store 0%nat
           sample_trip_1).
  reflexivity.
Defined.

Example busy_morning_trip_1 :
  let s' := run busy_morning initial_store in
  (Trip.availableSeats <$> trips s' !! 0%nat) = Some 1 ∧
  booked (trips s') (bookings s') 0 = 2.
Proof. split; vm_compute; reflexivity. Qed.

(** One seat of trip [1], then a creation. *)
Lemma X20_witness_polite_requests :
  seats_within_total
    (run [PostBook "1" "b-1" "2025-06-01T08:00:00" (JObj ∅);
          PostTrip "t-4" (JObj albany_request)] initial_store).
Proof.
  apply (X20_seats_within_total
           [PostBook "1" "b-1" "2025-06-01T08:00:00" (JObj ∅);
            PostTrip "t-4" (JObj albany_request)] initial_store).
  - apply Forall_cons. split; [|by repeat constructor].
    intros k Hk. vm_compute in Hk. injection Hk as <-. lia.
  - unfold seats_within_total. cbn. repeat constructor; cbn; lia.
Defined.

(** The identifiers of the sample trips are distinct. *)
Lemma sample_ids_distinct : NoDup (Trip.id <$> trips initial_store).
Proof. apply (bool_decide_unpack _). vm_compute. exact I. Qed.

(** The busy morning creates one trip, under a new identifier. *)
Lemma X21_witness_busy_morning :
  let s' := run busy_morning initial_store in
  NoDup (Trip.id <$> trips s') ∧
  ∀ i t, trips s' !! i = Some t → find_trip (Trip.id t) (trips s') = Some (i, t).
Proof.
  apply (X21_distinct_identifiers busy_morning initial_store).
  - exact sample_ids_distinct.
  - cbn. split_and!; try done.
    apply Forall_forall. repeat constructor; discriminate.
Defined.


(** The booking with the number 5 as user is not listed for [5]. *)
Lemma X23_witness_user_5 :
  Booking.mk "b-1" "2" (JInt 5) 1 "confirmed" "2025-06-01T12:00:00"
    (float_lit 50 1)
  ∉ db_booking <$> bl_bookings (mk_booking_list [] 0).
Proof.
  apply (X23_booking_of_nobody store_with_booking_of_nobody
           (Booking.mk "b-1" "2" (JInt 5) 1 "confirmed" "2025-06-01T12:00:00"
              (float_lit 50 1))
           "5" 200 (mk_booking_list [] 0));
    [discriminate | vm_compute; reflexivity].
Defined.

Example booking_of_nobody_is_stored :
  bookings store_with_booking_of_nobody =
    [Booking.mk "b-1" "2" (JInt 5) 1 "confirmed" "2025-06-01T12:00:00"
       (float_lit 50 1)].
Proof. vm_compute. reflexivity. Qed.

End Further_scenarios.
